(** * scrape_arxiv: a model of the report generator and its properties

    The script [scrape_arxiv.py] asks the arXiv search service for the papers
    of some categories, keeps those of the last [nb_days] days, counts them
    per day and writes a text report.  This file embeds the script in Rocq
    (Python integers as [Z], strings as [string], the [defaultdict] as a
    [gmap], the effects of [main] as a trace of events with an optional
    exception) and proves the properties its specification states. *)

From Stdlib Require Import ZArith String Ascii List DecimalString Lia Bool.
From stdpp Require Import base gmap strings list fin_maps.

Local Open Scope string_scope.
Local Open Scope list_scope.
Local Open Scope Z_scope.

(** ** Python strings and integers *)

Module Py.

(** The newline character and the double quote character. *)
Definition nl : string := String (ascii_of_nat 10) EmptyString.
Definition dq : string := String (ascii_of_nat 34) EmptyString.

(** [str(n)], also what an f-string does with an integer. *)
Definition str (n : Z) : string := NilZero.string_of_int (Z.to_int n).

(** [sep.join(xs)]. *)
Definition join (sep : string) (xs : list string) : string :=
  String.concat sep xs.

(** Truth value of an optional string: [None] and the empty string are
    false, every other string is true. *)
Definition truthy (o : option string) : bool :=
  match o with
  | None => false
  | Some s => negb (String.eqb s "")
  end.

(** The text of an optional string that is used only when it is true. *)
Definition text (o : option string) : string := default "" o.

(** [s.zfill(w)] for the digit strings of non-negative numbers. *)
Fixpoint zeros (n : nat) : string :=
  match n with
  | O => ""
  | S n' => String "0"%char (zeros n')
  end.

Definition zfill (w : nat) (s : string) : string :=
  zeros (w - String.length s) +:+ s.

(** [range(n)]: empty when [n <= 0]. *)
Definition range (n : Z) : list Z := seqZ 0 n.

End Py.

(** ** The part of Python's [datetime] the script relies on

    A [datetime] carries its calendar date in its own time zone, the time of
    day (here in microseconds since midnight: the script never looks at the
    hour, minute and second separately) and the offset of its time zone from
    UTC, in microseconds.  The arithmetic below follows CPython's
    [_ymd2ord] and [_ord2ymd]. *)

Module datetime.

Record t : Type := mk {
  year : Z;
  month : Z;
  day : Z;
  micros : Z;
  utcoffset : Z
}.

Definition DAY_US : Z := 86400000000.

Definition DAYS_IN_MONTH : list Z :=
  [-1; 31; 28; 31; 30; 31; 30; 31; 31; 30; 31; 30; 31].
Definition DAYS_BEFORE_MONTH : list Z :=
  [-1; 0; 31; 59; 90; 120; 151; 181; 212; 243; 273; 304; 334].

Definition table (tbl : list Z) (m : Z) : Z := nth (Z.to_nat m) tbl 0.

Definition is_leap (y : Z) : bool :=
  (y mod 4 =? 0) && (negb (y mod 100 =? 0) || (y mod 400 =? 0)).

Definition days_before_year (y : Z) : Z :=
  let y := y - 1 in
  y * 365 + y / 4 - y / 100 + y / 400.

Definition days_before_month (y m : Z) : Z :=
  table DAYS_BEFORE_MONTH m + Z.b2z ((2 <? m) && is_leap y).

Definition ymd2ord (y m d : Z) : Z :=
  days_before_year y + days_before_month y m + d.

Definition DI400Y : Z := 146097.
Definition DI100Y : Z := 36524.
Definition DI4Y : Z := 1461.

Definition ord2ymd (n : Z) : Z * Z * Z :=
  let n := n - 1 in
  let n400 := n / DI400Y in
  let n := n mod DI400Y in
  let year := n400 * 400 + 1 in
  let n100 := n / DI100Y in
  let n := n mod DI100Y in
  let n4 := n / DI4Y in
  let n := n mod DI4Y in
  let n1 := n / 365 in
  let n := n mod 365 in
  let year := year + n100 * 100 + n4 * 4 + n1 in
  if (n1 =? 4) || (n100 =? 4) then (year - 1, 12, 31)
  else
    let leapyear := (n1 =? 3) && (negb (n4 =? 24) || (n100 =? 3)) in
    let month := Z.shiftr (n + 50) 5 in
    let preceding :=
      table DAYS_BEFORE_MONTH month + Z.b2z ((2 <? month) && leapyear) in
    if n <? preceding then
      let month := month - 1 in
      let preceding :=
        preceding
        - (table DAYS_IN_MONTH month + Z.b2z ((month =? 2) && leapyear)) in
      (year, month, n - preceding + 1)
    else (year, month, n - preceding + 1).

(** The second half of [ord2ymd] on its own, from the day of the year
    (counted from 0) and the leap flag to the month and the day, and the
    property of it that the proofs check for every day of a year. *)
Definition month_day (n : Z) (leapyear : bool) : Z * Z :=
  let month := Z.shiftr (n + 50) 5 in
  let preceding :=
    table DAYS_BEFORE_MONTH month + Z.b2z ((2 <? month) && leapyear) in
  if n <? preceding then
    let month := month - 1 in
    let preceding :=
      preceding
      - (table DAYS_IN_MONTH month + Z.b2z ((month =? 2) && leapyear)) in
    (month, n - preceding + 1)
  else (month, n - preceding + 1).

Definition month_day_ok (leap : bool) (n : Z) : bool :=
  let '(m, d) := month_day n leap in
  (table DAYS_BEFORE_MONTH m + Z.b2z ((2 <? m) && leap) + d =? n + 1)
  && (1 <=? m) && (m <=? 12) && (1 <=? d).

Definition toordinal (d : t) : Z := ymd2ord (year d) (month d) (day d).

(** The point in time a [datetime] denotes, in microseconds of UTC.
    Comparisons of time-zone-aware values are comparisons of these. *)
Definition instant (d : t) : Z :=
  toordinal d * DAY_US + micros d - utcoffset d.

Definition lt (a b : t) : bool := instant a <? instant b.
Definition ne (a b : t) : bool := negb (instant a =? instant b).

(** [d + timedelta(days=n)] (and [d - timedelta(days=n)] with [-n]): the
    date moves by [n] days, the time of day and the zone stay.  CPython
    raises [OverflowError] when the result leaves the years 1 to 9999;
    the script only moves the present time by less than 367 days. *)
Definition add_days (d : t) (n : Z) : t :=
  let '(y, m, dd) := ord2ymd (toordinal d + n) in
  mk y m dd (micros d) (utcoffset d).

(** [datetime.datetime(y, m, d, tzinfo=tz)]: midnight of that day. *)
Definition at_midnight (y m d : Z) (tz : Z) : t := mk y m d 0 tz.

(** [datetime.datetime.now(tz)], from a clock that counts the microseconds
    of UTC since the start of 0001-01-01. *)
Definition now (clock : Z) (tz : Z) : t :=
  let local := clock + tz in
  let '(y, m, dd) := ord2ymd (local / DAY_US + 1) in
  mk y m dd (local mod DAY_US) tz.

(** One directive of [strftime]: the year on four digits, the month and
    the day on two.  (Below the year 1000 some C libraries leave the year
    unpadded; the records of the service and the present day have
    four-digit years.)  Other directives do not occur in the script. *)
Definition directive (c : ascii) (d : t) : string :=
  if Ascii.eqb c "Y"%char then Py.zfill 4 (Py.str (year d))
  else if Ascii.eqb c "m"%char then Py.zfill 2 (Py.str (month d))
  else if Ascii.eqb c "d"%char then Py.zfill 2 (Py.str (day d))
  else if Ascii.eqb c "%"%char then "%"
  else String "%"%char (String c "").

Fixpoint strftime (d : t) (fmt : string) : string :=
  match fmt with
  | EmptyString => ""
  | String c rest =>
      if Ascii.eqb c "%"%char then
        match rest with
        | String c' rest' => directive c' d +:+ strftime d rest'
        | EmptyString => "%"
        end
      else String c (strftime d rest)
  end.

#[global] Arguments strftime : simpl never.

End datetime.

(** ** The records of the search collaborator (the [arxiv] package) *)

Module arxiv.

Inductive SortCriterion := Relevance | LastUpdatedDate | SubmittedDate.
Inductive SortOrder := Ascending | Descending.

Module Author.
Record t : Type := mk { name : string }.
End Author.

Module Link.
Record t : Type := mk { href : string; title : option string }.
End Link.

Module Result.
Record t : Type := mk {
  entry_id : string;
  updated : datetime.t;
  published : datetime.t;
  title : string;
  authors : list Author.t;
  summary : string;
  comment : option string;
  journal_ref : option string;
  doi : option string;
  primary_category : string;
  categories : list string;
  links : list Link.t
}.
End Result.

Module Search.
Record t : Type := mk {
  query : string;
  id_list : list string;
  max_results : Z;
  sort_by : SortCriterion;
  sort_order : SortOrder
}.
End Search.

End arxiv.

Import arxiv.

(** ** The script *)

Definition DATE_FORMAT : string := "%Y-%m-%d".
Definition MAX_RESULTS : Z := 300000.
Definition MAX_PAPERS_PER_DAY : Z := 200.

(** [link.title and link.title != "pdf"] *)
Definition link_listed (l : Link.t) : bool :=
  Py.truthy (Link.title l) && negb (String.eqb (Py.text (Link.title l)) "pdf").

Definition format_result (r : Result.t) : string :=
  let m := "# " +:+ Result.title r in
  let m := m +:+ Py.nl +:+ "- URL: " +:+ Result.entry_id r in
  let m := m +:+ Py.nl +:+ "- Published: "
             +:+ datetime.strftime (Result.published r) DATE_FORMAT in
  let m :=
    if datetime.ne (Result.updated r) (Result.published r)
    then m +:+ " (updated "
           +:+ datetime.strftime (Result.updated r) DATE_FORMAT +:+ ")"
    else m in
  let m := m +:+ Py.nl +:+ "- Authors: "
             +:+ Py.join ", " (map Author.name (Result.authors r)) in
  let m :=
    if Py.truthy (Result.comment r)
    then m +:+ Py.nl +:+ "- Comments: " +:+ Py.text (Result.comment r)
    else m in
  let m :=
    if Py.truthy (Result.journal_ref r)
    then m +:+ Py.nl +:+ "- Journal: " +:+ Py.text (Result.journal_ref r)
    else m in
  let m :=
    if Py.truthy (Result.doi r)
    then m +:+ Py.nl +:+ "- DOI: " +:+ Py.text (Result.doi r)
    else m in
  let m := m +:+ Py.nl +:+ "- Primary category: "
             +:+ Result.primary_category r in
  let m := m +:+ Py.nl +:+ "- Categories: "
             +:+ Py.join ", " (Result.categories r) in
  let links := map Link.href (List.filter link_listed (Result.links r)) in
  let m :=
    if negb (length links =? 0)%nat
    then m +:+ Py.nl +:+ "- Links: " +:+ Py.join ", " links
    else m in
  let m := m +:+ Py.nl +:+ "- Abstract: " +:+ Py.dq
             +:+ Result.summary r +:+ Py.dq in
  m.

(** *** The effects of [main]

    A run of [main] is observed through the events it causes, in order, and
    through the exception that ends it, if any.  [Request s] is the network
    activity of iterating over [s.results()]; [Print msg] is [print(msg)];
    [WriteFile path content] is the file that the [with open(path, 'w')]
    block leaves behind when it is left, normally or by an exception: the
    text that reached it.  [OSError] stands for the errors of [open] and of
    the device ([FileNotFoundError], [PermissionError], a full disk and the
    like). *)

Inductive exn := AssertionError | StopIteration | OSError | UnicodeEncodeError.

Inductive event :=
  | Request (s : Search.t)
  | Print (msg : string)
  | WriteFile (path : string) (content : string).

(** How a write to a file fails: the encoding of the file cannot encode the
    text, and nothing of it is written; or the device fails when only the
    first [n] characters of the text have reached the file. *)
Inductive fault := Unencodable | Failed (n : nat).

Definition M (A : Type) : Type := list event * (exn + A).

Definition ret {A} (a : A) : M A := ([], inr a).

Definition bind {A B} (k : A -> M B) (m : M A) : M B :=
  match m with
  | (tr, inl e) => (tr, inl e)
  | (tr, inr a) => let '(tr', r) := k a in (tr ++ tr', r)
  end.

#[global] Instance M_ret : MRet M := @ret.
#[global] Instance M_bind : MBind M := @bind.

Definition emit (ev : event) : M unit := ([ev], inr tt).
Definition raise {A} (e : exn) : M A := ([], inl e).

Definition assert_ (b : bool) : M unit :=
  if b then ret tt else raise AssertionError.

Definition print (msg : string) : M unit := emit (Print msg).

(** What is outside the program: the file system, the clock and the
    search service, which answers a search with a finite sequence of
    records that the program pulls one at a time.  [can_open path] tells
    whether [open(path, 'w')] succeeds, and [write_fault sofar text] how
    [f.write(text)] fails, if it does, on a file that holds [sofar]. *)
Record World : Type := {
  path_exists : string -> bool;
  abspath : string -> string;
  clock : Z;
  results : Search.t -> list Result.t;
  can_open : string -> bool;
  write_fault : string -> string -> option fault
}.

(** A file open for writing: the text written so far, and the exception
    that a write has raised, if any. *)
Record File : Type := {
  written : string;
  error : option exn
}.

Definition new_file : File := {| written := ""; error := None |}.

(** [f.write(text)]: the text is appended, unless the write fails.  When
    the text cannot be encoded nothing of it is written and
    [UnicodeEncodeError] is raised; when the device fails a part of the text
    from its start is written and [OSError] is raised.  Once an exception is
    raised the rest of the block is skipped. *)
Definition fwrite (w : World) (f : File) (text : string) : File :=
  match error f with
  | Some _ => f
  | None =>
      match write_fault w (written f) text with
      | None => {| written := written f +:+ text; error := None |}
      | Some Unencodable =>
          {| written := written f; error := Some UnicodeEncodeError |}
      | Some (Failed n) =>
          {| written := written f +:+ String.substring 0 n text;
             error := Some OSError |}
      end
  end.

Definition iterate (w : World) (s : Search.t) : M (list Result.t) :=
  emit (Request s) ;; ret (results w s).

(** [next(it)] *)
Definition next {A} (it : list A) : M A :=
  match it with
  | [] => raise StopIteration
  | x :: _ => ret x
  end.

Record Args : Type := {
  path_output : string;
  categories : list string;
  nb_days : Z;
  include_updates : bool
}.

(** *** [defaultdict(int)] *)

Module defaultdict.

(** [m[k]]: a missing key is inserted with the value 0. *)
Definition getitem (m : gmap string Z) (k : string) : Z * gmap string Z :=
  match m !! k with
  | Some v => (v, m)
  | None => (0, <[k := 0]> m)
  end.

(** [m[k] += 1] *)
Definition incr (m : gmap string Z) (k : string) : gmap string Z :=
  let '(v, m') := getitem m k in <[k := v + 1]> m'.

(** [sum(m.values())] *)
Definition total (m : gmap string Z) : Z :=
  map_fold (fun _ v acc => v + acc) 0 m.

End defaultdict.

(** *** The pieces of [main] *)

Definition probe_search : Search.t :=
  Search.mk "language" [] 1 SubmittedDate Descending.

(** Lines 59 to 61. *)
Definition start_date_of (w : World) (args : Args) (tzinfo : Z) : datetime.t :=
  let now := datetime.now (clock w) tzinfo in
  let sd := datetime.add_days now (- nb_days args) in
  datetime.at_midnight
    (datetime.year sd) (datetime.month sd) (datetime.day sd) tzinfo.

(** Lines 65 to 75. *)
Definition main_search (args : Args) : Search.t :=
  let query := Py.join " OR " (map (fun c => "cat:" +:+ c) (categories args)) in
  let max_results := Z.min (MAX_PAPERS_PER_DAY * nb_days args) MAX_RESULTS in
  let sort_by :=
    if include_updates args then LastUpdatedDate else SubmittedDate in
  let sort_order := Descending in
  Search.mk query [] max_results sort_by sort_order.

(** The local variables of the filtering loop (lines 78 to 88). *)
Record Loop : Type := {
  fr : list Result.t;
  start_passed : bool;
  date_to_count : gmap string Z
}.

Definition loop_init : Loop :=
  {| fr := []; start_passed := false; date_to_count := ∅ |}.

Definition relevant_date (args : Args) (r : Result.t) : datetime.t :=
  if include_updates args then Result.updated r else Result.published r.

Fixpoint consume (args : Args) (start_date : datetime.t)
    (it : list Result.t) (st : Loop) : Loop :=
  match it with
  | [] => st
  | r :: it' =>
      let d := relevant_date args r in
      if datetime.lt d start_date then
        {| fr := fr st; start_passed := true;
           date_to_count := date_to_count st |}
      else
        consume args start_date it'
          {| fr := fr st ++ [r];
             start_passed := start_passed st;
             date_to_count :=
               defaultdict.incr (date_to_count st)
                 (datetime.strftime d DATE_FORMAT) |}
  end.

(** Lines 92 to 96. *)
Definition no_papers_msg (args : Args) : string :=
  let msg := "WARNING: No papers found in last " +:+ Py.str (nb_days args)
               +:+ " days." in
  let msg := msg +:+ " Consider increasing --nb_days" in
  let msg :=
    if negb (include_updates args)
    then msg +:+ " or adding the flag --include_updates"
    else msg in
  msg +:+ "." +:+ Py.nl.

(** Lines 102 to 106. *)
Definition truncation_msg (args : Args) (max_results : Z) : string :=
  let msg := "WARNING: max_results (" +:+ Py.str max_results
               +:+ ") was too low to get all papers for the last "
               +:+ Py.str (nb_days args) +:+ " days." in
  if max_results <? MAX_RESULTS
  then msg +:+ " Consider increasing MAX_PAPERS_PER_DAY ("
           +:+ Py.str MAX_PAPERS_PER_DAY +:+ ")."
  else msg +:+ " The API limits the number of results to "
           +:+ Py.str MAX_RESULTS +:+ ".".

(** The [with] block when every write succeeds (lines 111 to 119): the text
    written and the table afterwards.

    One turn of the loop of lines 114 to 116: the text so far and the table,
    which the lookup may extend. *)
Definition write_day (start_date : datetime.t)
    (acc : string * gmap string Z) (i : Z) : string * gmap string Z :=
  let '(f, tbl) := acc in
  let d := datetime.strftime (datetime.add_days start_date i) DATE_FORMAT in
  let '(c, tbl) := defaultdict.getitem tbl d in
  (f +:+ "- " +:+ d +:+ ": " +:+ Py.str c +:+ Py.nl, tbl).

(** One turn of the loop of lines 118 and 119. *)
Definition write_result (f : string) (r : Result.t) : string :=
  f +:+ format_result r +:+ Py.nl +:+ Py.nl +:+ Py.nl.

(** Lines 111 to 119. *)
Definition write_report (args : Args) (start_date : datetime.t) (st : Loop)
    : string * gmap string Z :=
  let msg := "# Distribution of paper count by date of " in
  let msg :=
    msg +:+ (if include_updates args then "update" else "submission") in
  let f := msg +:+ Py.nl in
  let '(f, tbl) :=
    fold_left (write_day start_date) (Py.range (nb_days args))
      (f, date_to_count st) in
  let f := f +:+ Py.nl +:+ "********************" +:+ Py.nl +:+ Py.nl in
  let f := fold_left write_result (fr st) f in
  (f, tbl).

(** The [with] block with writes that can fail.

    One turn of the loop of lines 114 to 116 on the open file. *)
Definition write_day_to (w : World) (start_date : datetime.t)
    (acc : File * gmap string Z) (i : Z) : File * gmap string Z :=
  let '(f, tbl) := acc in
  match error f with
  | Some _ => acc
  | None =>
      let d :=
        datetime.strftime (datetime.add_days start_date i) DATE_FORMAT in
      let '(c, tbl) := defaultdict.getitem tbl d in
      (fwrite w f ("- " +:+ d +:+ ": " +:+ Py.str c +:+ Py.nl), tbl)
  end.

(** One turn of the loop of lines 118 and 119 on the open file. *)
Definition write_result_to (w : World) (f : File) (r : Result.t) : File :=
  fwrite w f (format_result r +:+ Py.nl +:+ Py.nl +:+ Py.nl).

(** The body of the [with] block, lines 111 to 119, on the file [f]. *)
Definition with_block (w : World) (args : Args) (start_date : datetime.t)
    (st : Loop) (f : File) : File * gmap string Z :=
  let msg := "# Distribution of paper count by date of " in
  let msg :=
    msg +:+ (if include_updates args then "update" else "submission") in
  let f := fwrite w f (msg +:+ Py.nl) in
  let '(f, tbl) :=
    fold_left (write_day_to w start_date) (Py.range (nb_days args))
      (f, date_to_count st) in
  let f := fwrite w f (Py.nl +:+ "********************" +:+ Py.nl +:+ Py.nl) in
  let f := fold_left (write_result_to w) (fr st) f in
  (f, tbl).

(** [with open(path, 'w') as f: body].  When the file cannot be opened
    [open] raises and there is no file.  Otherwise the body runs on the new,
    empty file; the file is closed with what was written, however the body
    is left, and an exception of the body goes on. *)
Definition with_open (w : World) (path : string) (body : File -> File)
    : M unit :=
  if can_open w path then
    let f := body new_file in
    emit (WriteFile path (written f)) ;;
    match error f with
    | Some e => raise e
    | None => ret tt
    end
  else raise OSError.

Definition main (w : World) (args : Args) : M unit :=
  assert_ (0 <? nb_days args) ;;
  assert_ (nb_days args <? 367) ;;
  assert_ (negb (path_exists w (path_output args))) ;;
  it ← iterate w probe_search ;
  r ← next it ;
  let tzinfo := datetime.utcoffset (Result.published r) in
  let start_date := start_date_of w args tzinfo in
  print (Py.nl +:+ "INFO: getting papers from last "
           +:+ Py.str (nb_days args) +:+ " days.") ;;
  let search := main_search args in
  it ← iterate w search ;
  let st := consume args start_date it loop_init in
  if (length (fr st) =? 0)%nat then
    print (no_papers_msg args) ;;
    ret tt
  else
    (if negb (start_passed st)
     then print (truncation_msg args (Search.max_results search))
     else ret tt) ;;
    with_open w (path_output args)
      (fun f => fst (with_block w args start_date st f)) ;;
    print ("INFO: Wrote " +:+ Py.str (Z.of_nat (length (fr st)))
             +:+ " results in " +:+ abspath w (path_output args) +:+ Py.nl) ;;
    ret tt.

(** * Notions used to state the properties *)

(** The count a report line shows for a day: 0 when the day is absent. *)
Definition count_of (m : gmap string Z) (k : string) : Z := default 0 (m !! k).

(** A record is older than the window when its relevant date is strictly
    earlier than the start date. *)
Definition older (args : Args) (start_date : datetime.t) (r : Result.t) : bool :=
  datetime.lt (relevant_date args r) start_date.

(** The sequence the collaborator is asked for: no record is later than a
    record before it, by the relevant date. *)
Fixpoint descending (args : Args) (rs : list Result.t) : Prop :=
  match rs with
  | [] => True
  | r :: rs' =>
      Forall (fun r' => datetime.instant (relevant_date args r')
                        <= datetime.instant (relevant_date args r)) rs'
      /\ descending args rs'
  end.

(** The key of a record in the day-count table. *)
Definition day_key (args : Args) (r : Result.t) : string :=
  datetime.strftime (relevant_date args r) DATE_FORMAT.

(** The two informative messages of a run (lines 64 and 120). *)
Definition info_msg (args : Args) : string :=
  Py.nl +:+ "INFO: getting papers from last " +:+ Py.str (nb_days args)
    +:+ " days.".

Definition wrote_msg (w : World) (args : Args) (n : nat) : string :=
  "INFO: Wrote " +:+ Py.str (Z.of_nat n) +:+ " results in "
    +:+ abspath w (path_output args) +:+ Py.nl.

(** What a run does once its arguments were accepted and the probe query
    returned a first record [r0]. *)
Definition run_after_probe (w : World) (args : Args) (r0 : Result.t)
    : M unit :=
  let start_date :=
    start_date_of w args (datetime.utcoffset (Result.published r0)) in
  let st :=
    consume args start_date (results w (main_search args)) loop_init in
  let first :=
    [Request probe_search; Print (info_msg args);
     Request (main_search args)] in
  match fr st with
  | [] => (first ++ [Print (no_papers_msg args)], inr tt)
  | _ :: _ =>
      let warning :=
        if start_passed st then []
        else [Print (truncation_msg args
                       (Search.max_results (main_search args)))] in
      if can_open w (path_output args) then
        let f := fst (with_block w args start_date st new_file) in
        match error f with
        | None =>
            (first ++ warning
               ++ [WriteFile (path_output args) (written f);
                   Print (wrote_msg w args (length (fr st)))],
             inr tt)
        | Some e =>
            (first ++ warning ++ [WriteFile (path_output args) (written f)],
             inl e)
        end
      else (first ++ warning, inl OSError)
  end.

(** A sequence in which no record is later, by the date [date] of a record,
    than a record before it. *)
Fixpoint descending_by (date : Result.t -> datetime.t) (rs : list Result.t)
    : Prop :=
  match rs with
  | [] => True
  | r :: rs' =>
      Forall (fun r' => datetime.instant (date r')
                        <= datetime.instant (date r)) rs'
      /\ descending_by date rs'
  end.

(** The number of records of a sequence whose date [date] falls on a day. *)
Definition records_dated (date : Result.t -> datetime.t) (day : string)
    (rs : list Result.t) : Z :=
  Z.of_nat
    (length
       (List.filter
          (fun r => String.eqb (datetime.strftime (date r) "%Y-%m-%d") day)
          rs)).

(** The line of an optional field in a block: nothing for a missing or empty
    value, else a newline, the label and the value. *)
Definition optional_line (label : string) (o : option string) : string :=
  match o with
  | None => ""
  | Some s => if String.eqb s "" then "" else Py.nl +:+ label +:+ s
  end.

(** A link that has a title, which is not empty and not [pdf]. *)
Definition titled_other_than_pdf (l : Link.t) : bool :=
  match Link.title l with
  | None => false
  | Some t => negb (String.eqb t "") && negb (String.eqb t "pdf")
  end.

(** The file [f] holds the text [s], or, when a write has failed, a part of
    [s] from its start, the exception being that of a write. *)
Definition file_follows (f : File) (s : string) : Prop :=
  match error f with
  | None => written f = s
  | Some e =>
      (e = UnicodeEncodeError \/ e = OSError)
      /\ exists rest, s = written f +:+ rest
  end.

(** ** The report, as the specification lays it out

    A header line, one count line per day of the window, a separator, one
    block per retained record.  The window is the [nb_days] days that start
    with the day of [start_date]. *)

Definition concat_strings (l : list string) : string :=
  fold_right String.append "" l.

Definition window_days (start_date : datetime.t) (n : Z) : list datetime.t :=
  map (datetime.add_days start_date) (Py.range n).

Definition count_line (tbl : gmap string Z) (d : datetime.t) : string :=
  let day := datetime.strftime d "%Y-%m-%d" in
  "- " +:+ day +:+ ": " +:+ Py.str (count_of tbl day) +:+ Py.nl.

Definition block (r : Result.t) : string :=
  format_result r +:+ Py.nl +:+ Py.nl +:+ Py.nl.

Definition report (args : Args) (start_date : datetime.t)
    (tbl : gmap string Z) (rs : list Result.t) : string :=
  "# Distribution of paper count by date of "
  +:+ (if include_updates args then "update" else "submission") +:+ Py.nl
  +:+ concat_strings
        (map (count_line tbl) (window_days start_date (nb_days args)))
  +:+ Py.nl +:+ "********************" +:+ Py.nl +:+ Py.nl
  +:+ concat_strings (map block rs).

(** The number of records of a sequence that fall on a day. *)
Definition records_on (args : Args) (day : string) (rs : list Result.t) : Z :=
  Z.of_nat
    (length (List.filter (fun r => String.eqb (day_key args r) day) rs)).

(** ** Sample data: a clock at 2024-01-10, just after midnight UTC *)

Definition sample_clock : Z := (738895 - 1) * datetime.DAY_US + 5.

Definition paper (id : string) (pub upd : datetime.t) : Result.t :=
  Result.mk id upd pub "A title" [Author.mk "A. One"; Author.mk "B. Two"]
    "An abstract." None None None "cs.CL" ["cs.CL"; "cs.LG"] [].

Definition paper_new : Result.t :=
  paper "http://arxiv.org/abs/2401.00003v1"
    (datetime.mk 2024 1 8 43200000000 0) (datetime.mk 2024 1 8 43200000000 0).

Definition paper_edge : Result.t :=
  paper "http://arxiv.org/abs/2401.00002v1"
    (datetime.mk 2024 1 3 0 0) (datetime.mk 2024 1 3 0 0).

Definition paper_old : Result.t :=
  paper "http://arxiv.org/abs/2401.00001v2"
    (datetime.mk 2024 1 2 86399000000 0) (datetime.mk 2024 1 2 86399000000 0).

Definition paper_today : Result.t :=
  paper "http://arxiv.org/abs/2401.00004v1"
    (datetime.mk 2024 1 10 1 0) (datetime.mk 2024 1 10 1 0).

Definition paper_yesterday : Result.t :=
  paper "http://arxiv.org/abs/2401.00005v1"
    (datetime.mk 2024 1 9 43200000000 0) (datetime.mk 2024 1 9 43200000000 0).

(** A record revised after publication, with a comment, an empty DOI, an
    abstract of two lines with a quotation, and three links of which one has
    a title other than [pdf]. *)
Definition paper_full : Result.t :=
  Result.mk "http://arxiv.org/abs/2401.00001v2"
    (datetime.mk 2024 1 5 3600000000 0) (datetime.mk 2024 1 1 0 0)
    "A title" [Author.mk "A. One"; Author.mk "B. Two"]
    ("Line one with a " +:+ Py.dq +:+ "quote" +:+ Py.dq +:+ Py.nl
       +:+ "and line two.")
    (Some "5 pages") None (Some "") "cs.CL" ["cs.CL"; "cs.LG"]
    [Link.mk "http://a" None; Link.mk "http://b" (Some "pdf");
     Link.mk "http://c" (Some "doi")].

(** A world whose service answers the probe with one record and every other
    search with [rs]; [taken] is the one path that exists. *)
Definition sample_world (taken : string) (rs : list Result.t) : World :=
  {| path_exists := fun p => String.eqb p taken;
     abspath := fun p => "/home/user/" +:+ p;
     clock := sample_clock;
     results := fun s =>
       if String.eqb (Search.query s) "language" then [paper_new] else rs;
     can_open := fun _ => true;
     write_fault := fun _ _ => None |}.

Definition sample_args (cats : list string) (n : Z) : Args :=
  {| path_output := "out.md"; categories := cats; nb_days := n;
     include_updates := false |}.

(** The same arguments with [--include_updates]. *)
Definition sample_args_updates (cats : list string) (n : Z) : Args :=
  {| path_output := "out.md"; categories := cats; nb_days := n;
     include_updates := true |}.

(** A record published before the window and revised at the very start of
    it. *)
Definition paper_revised : Result.t :=
  paper "http://arxiv.org/abs/2312.00009v2"
    (datetime.mk 2023 12 30 0 0) (datetime.mk 2024 1 3 0 0).

(** A world like [sample_world] in which no file can be opened, as when the
    directory of the output path does not exist. *)
Definition closed_world (rs : list Result.t) : World :=
  {| path_exists := fun _ => false;
     abspath := fun p => "/home/user/" +:+ p;
     clock := sample_clock;
     results := fun s =>
       if String.eqb (Search.query s) "language" then [paper_new] else rs;
     can_open := fun _ => false;
     write_fault := fun _ _ => None |}.

(** Whether a text has only characters of ASCII. *)
Fixpoint ascii_only (s : string) : bool :=
  match s with
  | EmptyString => true
  | String c s' => (nat_of_ascii c <? 128)%nat && ascii_only s'
  end.

(** A world like [sample_world] whose files are encoded in ASCII. *)
Definition ascii_world (rs : list Result.t) : World :=
  {| path_exists := fun _ => false;
     abspath := fun p => "/home/user/" +:+ p;
     clock := sample_clock;
     results := fun s =>
       if String.eqb (Search.query s) "language" then [paper_new] else rs;
     can_open := fun _ => true;
     write_fault := fun _ text =>
       if ascii_only text then None else Some Unencodable |}.

(** A world like [sample_world] whose disk is full once the file holds 60
    characters. *)
Definition small_disk_world (rs : list Result.t) : World :=
  {| path_exists := fun _ => false;
     abspath := fun p => "/home/user/" +:+ p;
     clock := sample_clock;
     results := fun s =>
       if String.eqb (Search.query s) "language" then [paper_new] else rs;
     can_open := fun _ => true;
     write_fault := fun sofar text =>
       if (String.length sofar + String.length text <=? 60)%nat then None
       else Some (Failed (60 - String.length sofar)) |}.

(** A record of the window whose title has a character outside ASCII. *)
Definition paper_accent : Result.t :=
  Result.mk "http://arxiv.org/abs/2401.00005v1"
    (datetime.mk 2024 1 7 0 0) (datetime.mk 2024 1 7 0 0)
    ("R" +:+ String (ascii_of_nat 233) "sum" +:+ String (ascii_of_nat 233) "")
    [Author.mk "A. One"] "An abstract." None None None "cs.CL" ["cs.CL"] [].

Definition sample_start : datetime.t := datetime.mk 2024 1 3 0 0.

(** * Further notions *)

Definition is_write (ev : event) : bool :=
  match ev with WriteFile _ _ => true | _ => false end.

Definition is_request (ev : event) : bool :=
  match ev with Request _ => true | _ => false end.

Definition is_print (ev : event) : bool :=
  match ev with Print _ => true | _ => false end.

(** An optional string with the empty string taken for a missing one. *)
Definition blank_to_none (o : option string) : option string :=
  match o with
  | Some s => if String.eqb s "" then None else Some s
  | None => None
  end.

(** A record in which every empty comment, journal reference, DOI and link
    title is replaced by a missing one. *)
Definition without_blanks (r : Result.t) : Result.t :=
  Result.mk (Result.entry_id r) (Result.updated r) (Result.published r)
    (Result.title r) (Result.authors r) (Result.summary r)
    (blank_to_none (Result.comment r))
    (blank_to_none (Result.journal_ref r))
    (blank_to_none (Result.doi r))
    (Result.primary_category r) (Result.categories r)
    (map (fun l => Link.mk (Link.href l) (blank_to_none (Link.title l)))
       (Result.links r)).

(** ** Calendar dates

    [_days_in_month] of CPython and the dates its constructors accept (the
    bounds on the year apart). *)

Definition days_in_month (y m : Z) : Z :=
  if (m =? 2) && datetime.is_leap y then 29
  else datetime.table datetime.DAYS_IN_MONTH m.

Definition valid_date (d : datetime.t) : Prop :=
  1 <= datetime.month d <= 12
  /\ 1 <= datetime.day d <= days_in_month (datetime.year d) (datetime.month d)
  /\ 0 <= datetime.micros d < datetime.DAY_US.

(** The check, for a day of the year and a leap flag, that the month and the
    day computed from them are a month and a day of that month. *)
Definition month_day_in_range (leap : bool) (n : Z) : bool :=
  let '(m, d) := datetime.month_day n leap in
  (1 <=? m) && (m <=? 12) && (1 <=? d)
  && (d <=? (if (m =? 2) && leap then 29
             else datetime.table datetime.DAYS_IN_MONTH m)).

(** Reading a day key back: the number a string of digits stands for. *)
Definition read_number (s : string) : option Z :=
  option_map Z.of_int (NilZero.int_of_string s).

Definition year_field_ok (y : Z) : bool :=
  (String.length (Py.zfill 4 (Py.str y)) =? 4)%nat
  && match read_number (Py.zfill 4 (Py.str y)) with
     | Some y' => y' =? y
     | None => false
     end.

Definition short_field_ok (n : Z) : bool :=
  (String.length (Py.zfill 2 (Py.str n)) =? 2)%nat
  && match read_number (Py.zfill 2 (Py.str n)) with
     | Some n' => n' =? n
     | None => false
     end.

(** The sum of a list of counts. *)
Definition sum_counts (l : list Z) : Z := fold_right Z.add 0 l.

(** The counts that the day lines of the report show, in order. *)
Definition line_counts (start_date : datetime.t) (n : Z)
    (tbl : gmap string Z) : list Z :=
  map (fun d => count_of tbl (datetime.strftime d DATE_FORMAT))
    (window_days start_date n).

(** Whether the relevant date of a record is a day before the day of [d]. *)
Definition before_day_of (args : Args) (d : datetime.t) (r : Result.t) : bool :=
  datetime.toordinal (relevant_date args r) <? datetime.toordinal d.

(** A record whose relevant date is a calendar date with a four-digit year,
    in the time zone of [start_date]. *)
Definition plain_record (args : Args) (start_date : datetime.t)
    (r : Result.t) : Prop :=
  let d := relevant_date args r in
  datetime.utcoffset d = datetime.utcoffset start_date
  /\ valid_date d /\ 1000 <= datetime.year d <= 9999.

(** The keys of the days of the window, in the order of the lines. *)
Definition window_keys (start_date : datetime.t) (n : Z) : list string :=
  map (fun d => datetime.strftime d DATE_FORMAT) (window_days start_date n).

(** * Properties *)

(** ** The calendar: an ordinal converted to a date converts back *)

Lemma month_day_table (leap : bool) (n : Z) :
  0 <= n < 365 -> datetime.month_day_ok leap n = true.
Proof.
  intros Hn.
  assert (H : forallb (datetime.month_day_ok leap) (seqZ 0 365) = true)
    by (destruct leap; vm_compute; reflexivity).
  rewrite forallb_forall in H. apply H.
  apply list_elem_of_In, elem_of_seqZ. lia.
Qed.

Lemma ymd2ord_ord2ymd (n : Z) :
  let '(y, m, d) := datetime.ord2ymd n in datetime.ymd2ord y m d = n.
Proof.
  unfold datetime.ord2ymd. cbv zeta.
  unfold datetime.DI400Y, datetime.DI100Y, datetime.DI4Y.
  set (n0 := n - 1).
  pose proof (Z.div_mod n0 146097 ltac:(lia)) as E400.
  pose proof (Z.mod_pos_bound n0 146097 ltac:(lia)) as B400.
  set (q400 := n0 / 146097) in *. set (r400 := n0 mod 146097) in *.
  pose proof (Z.div_mod r400 36524 ltac:(lia)) as E100.
  pose proof (Z.mod_pos_bound r400 36524 ltac:(lia)) as B100.
  set (n100 := r400 / 36524) in *. set (r100 := r400 mod 36524) in *.
  pose proof (Z.div_mod r100 1461 ltac:(lia)) as E4.
  pose proof (Z.mod_pos_bound r100 1461 ltac:(lia)) as B4.
  set (n4 := r100 / 1461) in *. set (r4 := r100 mod 1461) in *.
  pose proof (Z.div_mod r4 365 ltac:(lia)) as E1.
  pose proof (Z.mod_pos_bound r4 365 ltac:(lia)) as B1.
  set (n1 := r4 / 365) in *. set (r1 := r4 mod 365) in *.
  assert (0 <= n100 <= 4 /\ 0 <= n4 <= 24 /\ 0 <= n1 <= 4) as (R100 & R4 & R1) by lia.
  assert (Hdby : forall k, 0 <= k <= 3 ->
            datetime.days_before_year (q400 * 400 + 1 + n100 * 100 + n4 * 4 + k) 
            = 146097 * q400 + 36524 * n100 + 1461 * n4 + 365 * k \/ n100 = 4).
  { intros k Hk. unfold datetime.days_before_year. cbv zeta.
    destruct (decide (n100 = 4)) as [| Hne]; [by right | left].
    set (Y := q400 * 400 + 1 + n100 * 100 + n4 * 4 + k - 1).
    pose proof (Z.div_mod Y 4 ltac:(lia)).
    pose proof (Z.mod_pos_bound Y 4 ltac:(lia)).
    pose proof (Z.div_mod Y 100 ltac:(lia)).
    pose proof (Z.mod_pos_bound Y 100 ltac:(lia)).
    pose proof (Z.div_mod Y 400 ltac:(lia)).
    pose proof (Z.mod_pos_bound Y 400 ltac:(lia)).
    lia. }
  destruct ((n1 =? 4) || (n100 =? 4)) eqn:Hsp.
  - apply orb_true_iff in Hsp. rewrite !Z.eqb_eq in Hsp.
    unfold datetime.ymd2ord, datetime.days_before_month, datetime.days_before_year, datetime.is_leap. cbv zeta.
    change (datetime.table datetime.DAYS_BEFORE_MONTH 12) with 334.
    change (2 <? 12) with true. rewrite andb_true_l.
    set (Y := q400 * 400 + 1 + n100 * 100 + n4 * 4 + n1 - 1).
    pose proof (Z.div_mod (Y - 1) 4 ltac:(lia)).
    pose proof (Z.mod_pos_bound (Y - 1) 4 ltac:(lia)).
    pose proof (Z.div_mod (Y - 1) 100 ltac:(lia)).
    pose proof (Z.mod_pos_bound (Y - 1) 100 ltac:(lia)).
    pose proof (Z.div_mod (Y - 1) 400 ltac:(lia)).
    pose proof (Z.mod_pos_bound (Y - 1) 400 ltac:(lia)).
    pose proof (Z.div_mod Y 4 ltac:(lia)).
    pose proof (Z.mod_pos_bound Y 4 ltac:(lia)).
    pose proof (Z.div_mod Y 100 ltac:(lia)).
    pose proof (Z.mod_pos_bound Y 100 ltac:(lia)).
    pose proof (Z.div_mod Y 400 ltac:(lia)).
    pose proof (Z.mod_pos_bound Y 400 ltac:(lia)).
    repeat match goal with
           | |- context [?a =? ?b] => destruct (Z.eqb_spec a b)
           end; simpl Z.b2z; lia.
  - apply orb_false_iff in Hsp as [Hn1 Hn100].
    apply Z.eqb_neq in Hn1, Hn100.
    destruct (Hdby n1 ltac:(lia)) as [Hy | ?]; [| lia].
    set (year := q400 * 400 + 1 + n100 * 100 + n4 * 4 + n1) in *.
    set (leap := (n1 =? 3) && (negb (n4 =? 24) || (n100 =? 3))).
    assert (Hleap : datetime.is_leap year = leap).
    { unfold datetime.is_leap, leap.
      pose proof (Z.div_mod year 4 ltac:(lia)).
      pose proof (Z.mod_pos_bound year 4 ltac:(lia)).
      pose proof (Z.div_mod year 100 ltac:(lia)).
      pose proof (Z.mod_pos_bound year 100 ltac:(lia)).
      pose proof (Z.div_mod year 400 ltac:(lia)).
      pose proof (Z.mod_pos_bound year 400 ltac:(lia)).
      repeat match goal with
             | |- context [?a =? ?b] => destruct (Z.eqb_spec a b)
             end; simpl; try reflexivity; exfalso; lia. }
    pose proof (month_day_table leap r1 ltac:(lia)) as Hmd.
    unfold datetime.month_day_ok, datetime.month_day in Hmd. cbv zeta in Hmd.
    destruct (r1 <? _).
    + unfold datetime.ymd2ord, datetime.days_before_month. rewrite Hleap, Hy.
      rewrite !andb_true_iff in Hmd. destruct Hmd as [[[Hm _] _] _].
      apply Z.eqb_eq in Hm. lia.
    + unfold datetime.ymd2ord, datetime.days_before_month. rewrite Hleap, Hy.
      rewrite !andb_true_iff in Hmd. destruct Hmd as [[[Hm _] _] _].
      apply Z.eqb_eq in Hm. lia.
Qed.

Lemma toordinal_add_days (d : datetime.t) (n : Z) :
  datetime.toordinal (datetime.add_days d n) = datetime.toordinal d + n.
Proof.
  unfold datetime.add_days. pose proof (ymd2ord_ord2ymd (datetime.toordinal d + n)) as H.
  destruct (datetime.ord2ymd (datetime.toordinal d + n)) as [[y m] dd]. exact H.
Qed.


(** ** The day-count table *)

Section table.

Implicit Types (m : gmap string Z) (k : string).

Lemma total_empty : defaultdict.total ∅ = 0.
Proof. unfold defaultdict.total. by rewrite map_fold_empty. Qed.

Lemma total_insert_fresh m k v :
  m !! k = None ->
  defaultdict.total (<[k := v]> m) = v + defaultdict.total m.
Proof.
  intros Hk. unfold defaultdict.total.
  rewrite map_fold_insert_L; [done | intros; lia | done].
Qed.

Lemma total_insert m k v :
  defaultdict.total (<[k := v]> m) = defaultdict.total m - count_of m k + v.
Proof.
  unfold count_of. destruct (m !! k) as [x|] eqn:Hk; simpl.
  - rewrite <- (insert_delete_eq m k v).
    rewrite total_insert_fresh by apply lookup_delete_eq.
    rewrite <- (insert_delete_id m k x Hk) at 2.
    rewrite total_insert_fresh by apply lookup_delete_eq. lia.
  - rewrite total_insert_fresh by done. lia.
Qed.

Lemma getitem_value m k : fst (defaultdict.getitem m k) = count_of m k.
Proof.
  unfold defaultdict.getitem, count_of. by destruct (m !! k).
Qed.

Lemma getitem_count m k k' :
  count_of (snd (defaultdict.getitem m k)) k' = count_of m k'.
Proof.
  unfold defaultdict.getitem, count_of.
  destruct (m !! k) eqn:Hk; simpl; [done |].
  destruct (decide (k = k')) as [<- | Hne].
  - by rewrite lookup_insert_eq, Hk.
  - by rewrite lookup_insert_ne.
Qed.

Lemma getitem_total m k :
  defaultdict.total (snd (defaultdict.getitem m k)) = defaultdict.total m.
Proof.
  unfold defaultdict.getitem.
  destruct (m !! k) eqn:Hk; simpl; [done |].
  rewrite total_insert_fresh by done. lia.
Qed.

Lemma getitem_dom m k k' :
  k' ∈ dom (snd (defaultdict.getitem m k)) <-> k' = k \/ k' ∈ dom m.
Proof.
  unfold defaultdict.getitem.
  destruct (m !! k) eqn:Hk; simpl.
  - split; [tauto |]. intros [-> | H]; [| done].
    apply elem_of_dom. by exists z.
  - rewrite dom_insert_L. set_solver.
Qed.

Lemma incr_count m k k' :
  count_of (defaultdict.incr m k) k'
  = count_of m k' + (if decide (k = k') then 1 else 0).
Proof.
  unfold defaultdict.incr.
  pose proof (getitem_value m k) as Hv.
  pose proof (getitem_count m k k') as Hc.
  destruct (defaultdict.getitem m k) as [v m'] eqn:Hg; simpl in *.
  unfold count_of at 1. case_decide as Hd.
  - subst k'. rewrite lookup_insert_eq. simpl. lia.
  - rewrite lookup_insert_ne by done. fold (count_of m' k'). lia.
Qed.

Lemma incr_total m k :
  defaultdict.total (defaultdict.incr m k) = defaultdict.total m + 1.
Proof.
  unfold defaultdict.incr.
  pose proof (getitem_value m k) as Hv.
  pose proof (getitem_count m k k) as Hc.
  pose proof (getitem_total m k) as Ht.
  destruct (defaultdict.getitem m k) as [v m'] eqn:Hg; simpl in *.
  rewrite total_insert. lia.
Qed.

End table.

(** ** The filtering loop *)

Section loop.

Variables (args : Args) (start_date : datetime.t).

Lemma consume_split (it : list Result.t) (st : Loop) :
  exists kept rest,
    it = kept ++ rest
    /\ Forall (fun r => older args start_date r = false) kept
    /\ fr (consume args start_date it st) = fr st ++ kept
    /\ date_to_count (consume args start_date it st)
       = fold_left defaultdict.incr (map (day_key args) kept) (date_to_count st)
    /\ match rest with
       | [] => start_passed (consume args start_date it st) = start_passed st
       | r :: _ =>
           older args start_date r = true
           /\ start_passed (consume args start_date it st) = true
       end.
Proof.
  revert st. induction it as [| r it IH]; intros st.
  - exists [], []. simpl. by rewrite app_nil_r.
  - simpl. destruct (datetime.lt (relevant_date args r) start_date) eqn:Hlt.
    + exists [], (r :: it). simpl. by rewrite app_nil_r.
    + destruct (IH {| fr := fr st ++ [r];
                      start_passed := start_passed st;
                      date_to_count :=
                        defaultdict.incr (date_to_count st)
                          (datetime.strftime (relevant_date args r)
                             DATE_FORMAT) |})
        as (kept & rest & -> & Hk & Hfr & Htbl & Hrest).
      exists (r :: kept), rest. simpl in *.
      repeat split; try done.
      * by constructor.
      * by rewrite Hfr, <- app_assoc.
Qed.

Lemma older_false (r : Result.t) :
  older args start_date r = false
  <-> datetime.instant start_date <= datetime.instant (relevant_date args r).
Proof. unfold older, datetime.lt. rewrite Z.ltb_ge. tauto. Qed.

Lemma older_true (r : Result.t) :
  older args start_date r = true
  <-> datetime.instant (relevant_date args r) < datetime.instant start_date.
Proof. unfold older, datetime.lt. apply Z.ltb_lt. Qed.

Lemma descending_app_r (l1 l2 : list Result.t) :
  descending args (l1 ++ l2) -> descending args l2.
Proof. induction l1 as [| a l1 IH]; simpl; [done |]. intros [_ H]. auto. Qed.

Lemma descending_all_older (r : Result.t) (rest : list Result.t) :
  descending args (r :: rest) ->
  older args start_date r = true ->
  Forall (fun r' => older args start_date r' = true) (r :: rest).
Proof.
  intros [Hle _] Hr. constructor; [done |].
  apply older_true in Hr.
  eapply Forall_impl; [exact Hle |]. simpl. intros r' Hr'.
  apply older_true. lia.
Qed.

Lemma filter_keep_all (l : list Result.t) :
  Forall (fun r => older args start_date r = false) l ->
  List.filter (fun r => negb (older args start_date r)) l = l.
Proof.
  induction 1 as [| r l Hr _ IH]; simpl; [done |]. by rewrite Hr, IH.
Qed.

Lemma filter_drop_all (l : list Result.t) :
  Forall (fun r => older args start_date r = true) l ->
  List.filter (fun r => negb (older args start_date r)) l = [].
Proof.
  induction 1 as [| r l Hr _ IH]; simpl; [done |]. by rewrite Hr.
Qed.

Lemma consume_keeps_all (it : list Result.t) :
  Forall (fun r => older args start_date r = false) it ->
  let st := consume args start_date it loop_init in
  fr st = it /\ start_passed st = false
  /\ date_to_count st
     = fold_left defaultdict.incr (map (day_key args) it) ∅.
Proof.
  intros Hall st.
  destruct (consume_split it loop_init)
    as (kept & rest & Hit & Hk & Hfr & Htbl & Hrest).
  fold st in Hfr, Htbl, Hrest. simpl in *.
  destruct rest as [| r rest].
  - rewrite app_nil_r in Hit. by subst kept.
  - exfalso. destruct Hrest as [Hold _].
    rewrite Hit in Hall. apply Forall_app in Hall as [_ Hall].
    apply Forall_cons in Hall as [Hr _]. congruence.
Qed.

End loop.

(** ** The run as a whole *)

Lemma main_rejects (w : World) (args : Args) :
  (0 <? nb_days args) && (nb_days args <? 367)
    && negb (path_exists w (path_output args)) = false ->
  main w args = ([], inl AssertionError).
Proof.
  unfold main. intros H.
  destruct (0 <? nb_days args); [| done].
  destruct (nb_days args <? 367); [| done].
  destruct (path_exists w (path_output args)); [done | discriminate].
Qed.

Lemma main_rejects_bad_arguments (w : World) (args : Args) :
  nb_days args <= 0 \/ 367 <= nb_days args
  \/ path_exists w (path_output args) = true ->
  main w args = ([], inl AssertionError).
Proof.
  intros H. apply main_rejects.
  destruct H as [H | [H | H]].
  - apply Z.ltb_ge in H. by rewrite H.
  - apply Z.ltb_ge in H. rewrite H. by rewrite andb_false_r.
  - rewrite H. by rewrite andb_false_r.
Qed.

Lemma main_probe_empty (w : World) (args : Args) :
  0 < nb_days args < 367 ->
  path_exists w (path_output args) = false ->
  results w probe_search = [] ->
  main w args = ([Request probe_search], inl StopIteration).
Proof.
  intros [H1 H2] H3 H4. unfold main.
  apply Z.ltb_lt in H1, H2. rewrite H1, H2, H3. simpl.
  unfold iterate. simpl. by rewrite H4.
Qed.

Lemma main_trace (w : World) (args : Args) (r0 : Result.t) (more : list Result.t) :
  0 < nb_days args < 367 ->
  path_exists w (path_output args) = false ->
  results w probe_search = r0 :: more ->
  main w args = run_after_probe w args r0.
Proof.
  intros [H1 H2] H3 H4. unfold main, run_after_probe.
  apply Z.ltb_lt in H1, H2. rewrite H1, H2, H3. simpl.
  unfold iterate. simpl. rewrite H4. simpl.
  destruct (fr _) as [| r frs] eqn:Hfr; simpl; [done |].
  unfold with_open.
  destruct (start_passed _); simpl;
    (destruct (can_open w (path_output args)); simpl; [| done]);
    destruct (error _); simpl; done.
Qed.

Lemma run_after_probe_requests (w : World) (args : Args) (r0 : Result.t) :
  exists later : list event,
    fst (run_after_probe w args r0)
    = Request probe_search :: Print (info_msg args)
        :: Request (main_search args) :: later
    /\ forall s, ~ In (Request s) later.
Proof.
  unfold run_after_probe. cbv zeta.
  destruct (fr _) as [| r frs]; simpl.
  - eexists. split; [reflexivity |]. intros s [[=] | []].
  - destruct (can_open w (path_output args));
      [destruct (error _) |]; destruct (start_passed _); simpl;
      (eexists; split; [reflexivity |]);
      intros s H; simpl in H; repeat destruct H as [[=] | H]; done.
Qed.

(** ** Strings *)

Lemma append_assoc (a b c : string) : (a +:+ b) +:+ c = a +:+ b +:+ c.
Proof.
  induction a as [| x a IH]; [reflexivity |].
  change (String x ((a +:+ b) +:+ c) = String x (a +:+ b +:+ c)).
  by rewrite IH.
Qed.

Lemma append_nil_r (a : string) : a +:+ "" = a.
Proof.
  induction a as [| x a IH]; [reflexivity |].
  change (String x (a +:+ "") = String x a). by rewrite IH.
Qed.

(** ** The formatted block of a record *)

Lemma link_listed_spec (l : Link.t) :
  link_listed l = true
  <-> exists t, Link.title l = Some t /\ t <> "" /\ t <> "pdf".
Proof.
  unfold link_listed. destruct (Link.title l) as [t |]; simpl.
  - rewrite andb_true_iff, !negb_true_iff, !String.eqb_neq.
    split.
    + intros [H1 H2]. by exists t.
    + intros (t' & [= <-] & H1 & H2). done.
  - split; [done |]. by intros (t & [=] & _).
Qed.

(** C7: the Published line of the block carries the clause
    [ (updated YYYY-MM-DD)] exactly when the record's [updated] timestamp
    differs from its [published] timestamp.  The block starts with the
    title line, the URL line and the publication date rendered from
    [published]; then comes the clause, rendered from [updated], when the
    two timestamps differ, and nothing when they are equal; the Authors line
    follows at once. *)
Theorem updated_clause_iff_timestamps_differ (r : Result.t) :
  exists rest : string,
    format_result r
    = "# " +:+ Result.title r +:+ Py.nl
      +:+ "- URL: " +:+ Result.entry_id r +:+ Py.nl
      +:+ "- Published: "
      +:+ datetime.strftime (Result.published r) "%Y-%m-%d"
      +:+ (if datetime.instant (Result.updated r)
              =? datetime.instant (Result.published r)
           then ""
           else " (updated "
                +:+ datetime.strftime (Result.updated r) "%Y-%m-%d" +:+ ")")
      +:+ Py.nl
      +:+ "- Authors: " +:+ Py.join ", " (map Author.name (Result.authors r))
      +:+ rest.
Proof.
  unfold format_result, datetime.ne, DATE_FORMAT. cbv zeta.
  destruct (datetime.instant (Result.updated r)
            =? datetime.instant (Result.published r)); simpl negb; cbv iota.
  all: repeat match goal with
         | |- context [if ?b then _ else _] => destruct b
         end.
  all: eexists; rewrite ?append_assoc;
       repeat (apply (f_equal (String.append _))); reflexivity.
Qed.

Lemma optional_line_truthy (label : string) (o : option string) :
  (if Py.truthy o then Py.nl +:+ label +:+ Py.text o else "")
  = optional_line label o.
Proof.
  destruct o as [t |]; simpl; [| done]. by destruct (String.eqb t "").
Qed.

Lemma link_listed_titled (l : Link.t) :
  link_listed l = titled_other_than_pdf l.
Proof.
  unfold link_listed, titled_other_than_pdf.
  by destruct (Link.title l) as [t |].
Qed.

Lemma format_result_layout (r : Result.t) :
  format_result r
  = "# " +:+ Result.title r +:+ Py.nl
    +:+ "- URL: " +:+ Result.entry_id r +:+ Py.nl
    +:+ "- Published: "
    +:+ datetime.strftime (Result.published r) "%Y-%m-%d"
    +:+ (if datetime.instant (Result.updated r)
            =? datetime.instant (Result.published r)
         then ""
         else " (updated "
              +:+ datetime.strftime (Result.updated r) "%Y-%m-%d" +:+ ")")
    +:+ Py.nl
    +:+ "- Authors: " +:+ Py.join ", " (map Author.name (Result.authors r))
    +:+ optional_line "- Comments: " (Result.comment r)
    +:+ optional_line "- Journal: " (Result.journal_ref r)
    +:+ optional_line "- DOI: " (Result.doi r)
    +:+ Py.nl
    +:+ "- Primary category: " +:+ Result.primary_category r +:+ Py.nl
    +:+ "- Categories: " +:+ Py.join ", " (Result.categories r)
    +:+ match List.filter titled_other_than_pdf (Result.links r) with
        | [] => ""
        | _ :: _ =>
            Py.nl +:+ "- Links: "
              +:+ Py.join ", "
                    (map Link.href
                       (List.filter titled_other_than_pdf (Result.links r)))
        end
    +:+ Py.nl
    +:+ "- Abstract: " +:+ Py.dq +:+ Result.summary r +:+ Py.dq.
Proof.
  rewrite <- !optional_line_truthy.
  rewrite <- (List.filter_ext _ _ link_listed_titled (Result.links r)).
  unfold format_result, datetime.ne, DATE_FORMAT. cbv zeta.
  destruct (datetime.instant (Result.updated r)
            =? datetime.instant (Result.published r)); simpl negb; cbv iota.
  all: destruct (Py.truthy (Result.comment r));
    destruct (Py.truthy (Result.journal_ref r));
    destruct (Py.truthy (Result.doi r));
    destruct (List.filter link_listed (Result.links r)) as [| l listed'];
    simpl negb; cbv iota.
  all: rewrite ?append_assoc;
       repeat (apply (f_equal (String.append _))); reflexivity.
Qed.

(** C8: in the block of every record the lines Comments, Journal and DOI are
    there exactly for the fields that are present (not missing and not
    empty), and the Links line lists the addresses of exactly the links
    that have a title, which is not [pdf], in their order, and is left out
    when there is none.  So a record with no comment, no journal reference,
    no DOI and no such link has none of the four lines: its block is the
    seven other lines. *)
Theorem absent_fields_leave_no_line (r : Result.t) :
  let listed := List.filter titled_other_than_pdf (Result.links r) in
  let published_line :=
    "- Published: "
    +:+ datetime.strftime (Result.published r) "%Y-%m-%d"
    +:+ (if datetime.instant (Result.updated r)
            =? datetime.instant (Result.published r)
         then ""
         else " (updated "
              +:+ datetime.strftime (Result.updated r) "%Y-%m-%d" +:+ ")") in
  format_result r
  = "# " +:+ Result.title r +:+ Py.nl
    +:+ "- URL: " +:+ Result.entry_id r +:+ Py.nl
    +:+ published_line +:+ Py.nl
    +:+ "- Authors: " +:+ Py.join ", " (map Author.name (Result.authors r))
    +:+ optional_line "- Comments: " (Result.comment r)
    +:+ optional_line "- Journal: " (Result.journal_ref r)
    +:+ optional_line "- DOI: " (Result.doi r)
    +:+ Py.nl
    +:+ "- Primary category: " +:+ Result.primary_category r +:+ Py.nl
    +:+ "- Categories: " +:+ Py.join ", " (Result.categories r)
    +:+ match listed with
        | [] => ""
        | _ :: _ => Py.nl +:+ "- Links: "
                      +:+ Py.join ", " (map Link.href listed)
        end
    +:+ Py.nl
    +:+ "- Abstract: " +:+ Py.dq +:+ Result.summary r +:+ Py.dq
  /\ (forall l : Link.t,
        In l listed
        <-> In l (Result.links r)
            /\ exists t, Link.title l = Some t /\ t <> "" /\ t <> "pdf")
  /\ ((Result.comment r = None \/ Result.comment r = Some "") ->
      (Result.journal_ref r = None \/ Result.journal_ref r = Some "") ->
      (Result.doi r = None \/ Result.doi r = Some "") ->
      listed = [] ->
      format_result r
      = "# " +:+ Result.title r +:+ Py.nl
        +:+ "- URL: " +:+ Result.entry_id r +:+ Py.nl
        +:+ published_line +:+ Py.nl
        +:+ "- Authors: "
        +:+ Py.join ", " (map Author.name (Result.authors r)) +:+ Py.nl
        +:+ "- Primary category: " +:+ Result.primary_category r +:+ Py.nl
        +:+ "- Categories: " +:+ Py.join ", " (Result.categories r) +:+ Py.nl
        +:+ "- Abstract: " +:+ Py.dq +:+ Result.summary r +:+ Py.dq).
Proof.
  intros listed published_line.
  assert (Hlayout := format_result_layout r). fold listed in Hlayout.
  split; [| split].
  - rewrite Hlayout. unfold published_line. rewrite ?append_assoc.
    reflexivity.
  - intros l. unfold listed. rewrite filter_In.
    rewrite <- link_listed_titled, link_listed_spec. tauto.
  - intros Hc Hj Hd Hl. rewrite Hlayout, Hl.
    assert (Hopt : forall label o, o = None \/ o = Some "" ->
                                   optional_line label o = "").
    { intros label o [-> | ->]; reflexivity. }
    rewrite !Hopt by done. unfold published_line.
    rewrite ?append_assoc. reflexivity.
Qed.

(** C10: the block ends with a newline, [- Abstract: ], a double quote, the
    abstract exactly as the record has it, and a double quote, whatever
    characters the abstract contains. *)
Theorem abstract_is_verbatim (r : Result.t) :
  exists before : string,
    format_result r
    = before +:+ Py.nl +:+ "- Abstract: " +:+ Py.dq
        +:+ Result.summary r +:+ Py.dq.
Proof.
  unfold format_result. cbv zeta. eexists. reflexivity.
Qed.

Lemma absent_fields_witness :
  format_result paper_new
  = "# A title" +:+ Py.nl
    +:+ "- URL: http://arxiv.org/abs/2401.00003v1" +:+ Py.nl
    +:+ "- Published: 2024-01-08" +:+ Py.nl
    +:+ "- Authors: A. One, B. Two" +:+ Py.nl
    +:+ "- Primary category: cs.CL" +:+ Py.nl
    +:+ "- Categories: cs.CL, cs.LG" +:+ Py.nl
    +:+ "- Abstract: " +:+ Py.dq +:+ "An abstract." +:+ Py.dq.
Proof.
  assert (H := absent_fields_leave_no_line paper_new). cbv zeta in H.
  destruct H as (_ & _ & H).
  rewrite (H (or_introl eq_refl) (or_introl eq_refl) (or_introl eq_refl)
             eq_refl).
  vm_compute. reflexivity.
Defined.

(** With a journal reference present the Links line still lists only the
    link whose title is neither missing nor [pdf]. *)
Lemma links_with_journal_example :
  format_result
    (Result.mk "id" sample_start sample_start "T" [Author.mk "A"] "S"
       None (Some "J. 1") None "cs.CL" ["cs.CL"]
       [Link.mk "http://a" None; Link.mk "http://b" (Some "pdf");
        Link.mk "http://c" (Some "doi"); Link.mk "http://d" (Some "")])
  = "# T" +:+ Py.nl
    +:+ "- URL: id" +:+ Py.nl
    +:+ "- Published: 2024-01-03" +:+ Py.nl
    +:+ "- Authors: A" +:+ Py.nl
    +:+ "- Journal: J. 1" +:+ Py.nl
    +:+ "- Primary category: cs.CL" +:+ Py.nl
    +:+ "- Categories: cs.CL" +:+ Py.nl
    +:+ "- Links: http://c" +:+ Py.nl
    +:+ "- Abstract: " +:+ Py.dq +:+ "S" +:+ Py.dq.
Proof. vm_compute. reflexivity. Qed.

(** A block with all its parts; the quote and the newline of the abstract
    are written as they are. *)
Lemma format_result_example :
  format_result paper_full
  = "# A title" +:+ Py.nl
    +:+ "- URL: http://arxiv.org/abs/2401.00001v2" +:+ Py.nl
    +:+ "- Published: 2024-01-01 (updated 2024-01-05)" +:+ Py.nl
    +:+ "- Authors: A. One, B. Two" +:+ Py.nl
    +:+ "- Comments: 5 pages" +:+ Py.nl
    +:+ "- Primary category: cs.CL" +:+ Py.nl
    +:+ "- Categories: cs.CL, cs.LG" +:+ Py.nl
    +:+ "- Links: http://c" +:+ Py.nl
    +:+ "- Abstract: " +:+ Py.dq +:+ "Line one with a " +:+ Py.dq
    +:+ "quote" +:+ Py.dq +:+ Py.nl +:+ "and line two." +:+ Py.dq.
Proof. vm_compute. reflexivity. Qed.

(** ** The consumption loop *)

Lemma descending_by_relevant_date (args : Args) (rs : list Result.t) :
  descending_by (relevant_date args) rs -> descending args rs.
Proof.
  induction rs as [| r rs IH]; simpl; [done |]. intros [H1 H2]. auto.
Qed.

(** C1: the relevant date of a record is [updated] when [include_updates]
    is set and [published] otherwise.  On a sequence that is descending by
    that date, the loop retains the records in order up to the first one
    whose relevant date is strictly earlier than [start_date]; there it
    stops and sets [start_passed], and when there is no such record it
    reaches the end with [start_passed] unset.  The retained records are
    exactly those of the sequence that are not earlier than [start_date];
    in particular a record dated exactly [start_date] is retained. *)
Theorem consume_retains_window (args : Args) (start_date : datetime.t)
    (rs : list Result.t) :
  let date := fun r : Result.t =>
    if include_updates args then Result.updated r else Result.published r in
  descending_by date rs ->
  let st := consume args start_date rs loop_init in
  (exists rest : list Result.t,
     rs = fr st ++ rest
     /\ Forall (fun r => datetime.instant start_date
                         <= datetime.instant (date r)) (fr st)
     /\ match rest with
        | [] => start_passed st = false
        | r :: _ =>
            datetime.instant (date r) < datetime.instant start_date
            /\ start_passed st = true
        end)
  /\ fr st
     = List.filter
         (fun r => datetime.instant start_date
                   <=? datetime.instant (date r)) rs
  /\ forall r : Result.t,
       In r rs ->
       datetime.instant (date r) = datetime.instant start_date ->
       In r (fr st).
Proof.
  intros date Hsorted st.
  assert (Hdate : forall r, date r = relevant_date args r) by reflexivity.
  apply (descending_by_relevant_date args rs) in Hsorted.
  destruct (consume_split args start_date rs loop_init)
    as (kept & rest & Hrs & Hkept & Hfr & _ & Hrest).
  fold st in Hfr, Hrest. simpl in Hfr, Hrest. subst kept.
  assert (Hfilter : fr st
                    = List.filter
                        (fun r => negb (older args start_date r)) rs).
  { rewrite Hrs, List.filter_app, filter_keep_all by done.
    destruct rest as [| r rest].
    - by rewrite app_nil_r.
    - destruct Hrest as [Hold _].
      rewrite filter_drop_all, app_nil_r; [done |].
      apply descending_all_older; [| done].
      rewrite Hrs in Hsorted. by apply descending_app_r in Hsorted. }
  assert (Hsame : forall r, negb (older args start_date r)
                            = (datetime.instant start_date
                               <=? datetime.instant (date r))).
  { intros r. rewrite Hdate. unfold older, datetime.lt. symmetry.
    apply Z.leb_antisym. }
  split; [| split].
  - exists rest. split; [done |]. split.
    + eapply Forall_impl; [exact Hkept |]. intros r. rewrite Hdate.
      apply older_false.
    + destruct rest as [| r rest]; [done |].
      destruct Hrest as [Hold Hsp]. split; [| done]. rewrite Hdate.
      by apply older_true.
  - rewrite Hfilter. apply List.filter_ext. exact Hsame.
  - intros r Hin Heq. rewrite Hfilter. apply filter_In. split; [done |].
    rewrite Hsame. apply Z.leb_le. lia.
Qed.

Lemma consume_stops_example :
  let st :=
    consume (sample_args ["cs.CL"] 7) sample_start
      [paper_new; paper_edge; paper_old; paper_old] loop_init in
  fr st = [paper_new; paper_edge] /\ start_passed st = true.
Proof. split; reflexivity. Qed.

(** With [--include_updates] the record revised exactly at [start_date] is
    retained although it was published before the window; without the flag
    it is the first older record and nothing after the first record is
    retained. *)
Lemma consume_retains_window_witness :
  descending_by Result.updated [paper_new; paper_revised; paper_old]
  /\ In paper_revised
       (fr (consume (sample_args_updates ["cs.CL"] 7) sample_start
              [paper_new; paper_revised; paper_old] loop_init)).
Proof.
  assert (H : descending_by
                (fun r : Result.t =>
                   if include_updates (sample_args_updates ["cs.CL"] 7)
                   then Result.updated r else Result.published r)
                [paper_new; paper_revised; paper_old]).
  { simpl. repeat split; repeat constructor; vm_compute; discriminate. }
  split; [exact H |].
  apply (consume_retains_window (sample_args_updates ["cs.CL"] 7)
           sample_start [paper_new; paper_revised; paper_old] H).
  - simpl. tauto.
  - reflexivity.
Defined.

Lemma consume_by_published_example :
  fr (consume (sample_args ["cs.CL"] 7) sample_start
        [paper_new; paper_revised; paper_old] loop_init)
  = [paper_new].
Proof. reflexivity. Qed.

(** ** Rendering the report *)

Section rendering.

Variable start_date : datetime.t.

Lemma write_days_spec (days : list Z) (f : string) (tbl : gmap string Z) :
  let res := fold_left (write_day start_date) days (f, tbl) in
  fst res
  = f +:+ concat_strings
            (map (count_line tbl) (map (datetime.add_days start_date) days))
  /\ (forall k, count_of (snd res) k = count_of tbl k)
  /\ defaultdict.total (snd res) = defaultdict.total tbl
  /\ (forall k, k ∈ dom (snd res)
                <-> k ∈ dom tbl
                    \/ exists i, In i days
                         /\ k = datetime.strftime
                                  (datetime.add_days start_date i) DATE_FORMAT).
Proof.
  revert f tbl. induction days as [| i days IH]; intros f tbl; simpl.
  - rewrite append_nil_r. repeat split; try tauto.
    intros [H | (i & [] & _)]; done.
  - unfold write_day at 2.
    pose proof (getitem_value tbl
                  (datetime.strftime (datetime.add_days start_date i)
                     DATE_FORMAT)) as Hv.
    pose proof (getitem_count tbl
                  (datetime.strftime (datetime.add_days start_date i)
                     DATE_FORMAT)) as Hc.
    pose proof (getitem_total tbl
                  (datetime.strftime (datetime.add_days start_date i)
                     DATE_FORMAT)) as Ht.
    pose proof (getitem_dom tbl
                  (datetime.strftime (datetime.add_days start_date i)
                     DATE_FORMAT)) as Hd.
    destruct (defaultdict.getitem tbl _) as [c tbl1]; simpl in Hv, Hc, Ht, Hd.
    destruct (IH (f +:+ "- "
                    +:+ datetime.strftime (datetime.add_days start_date i)
                          DATE_FORMAT
                    +:+ ": " +:+ Py.str c +:+ Py.nl) tbl1)
      as (IH1 & IH2 & IH3 & IH4).
    cbv zeta in *. unfold DATE_FORMAT in *.
    repeat split.
    + rewrite IH1. subst c. unfold count_line at 2. cbv zeta.
      rewrite !append_assoc. do 6 f_equal. f_equal.
      apply map_ext. intros d. unfold count_line. by rewrite Hc.
    + intros k. by rewrite IH2, Hc.
    + by rewrite IH3, Ht.
    + rewrite IH4, Hd. intros [[-> | H] | (j & Hj & ->)]; eauto.
    + rewrite IH4, Hd. intros [H | (j & [<- | Hj] & ->)]; eauto.
Qed.

Lemma write_results_spec (rs : list Result.t) (f : string) :
  fold_left write_result rs f = f +:+ concat_strings (map block rs).
Proof.
  revert f. induction rs as [| r rs IH]; intros f; simpl.
  - by rewrite append_nil_r.
  - rewrite IH. unfold write_result, block. by rewrite !append_assoc.
Qed.

Lemma write_report_spec (args : Args) (st : Loop) :
  fst (write_report args start_date st)
  = report args start_date (date_to_count st) (fr st).
Proof.
  unfold write_report, report, window_days.
  pose proof (write_days_spec (Py.range (nb_days args))
                ("# Distribution of paper count by date of "
                 +:+ (if include_updates args then "update" else "submission")
                 +:+ Py.nl) (date_to_count st)) as (H & _).
  cbv zeta in *.
  destruct (fold_left _ _ _) as [f tbl]. simpl in *. subst f.
  rewrite write_results_spec. by rewrite !append_assoc.
Qed.

Lemma write_report_table (args : Args) (st : Loop) :
  let tbl := snd (write_report args start_date st) in
  (forall k, count_of tbl k = count_of (date_to_count st) k)
  /\ defaultdict.total tbl = defaultdict.total (date_to_count st)
  /\ forall d, In d (window_days start_date (nb_days args)) ->
               datetime.strftime d DATE_FORMAT ∈ dom tbl.
Proof.
  unfold write_report, window_days.
  pose proof (write_days_spec (Py.range (nb_days args))
                ("# Distribution of paper count by date of "
                 +:+ (if include_updates args then "update" else "submission")
                 +:+ Py.nl) (date_to_count st)) as (_ & H2 & H3 & H4).
  cbv zeta in *.
  destruct (fold_left _ _ _) as [f tbl]. simpl in *.
  repeat split; [done | done |].
  intros d (i & <- & Hi)%in_map_iff. apply H4. eauto.
Qed.

End rendering.

(** ** Writes that can fail *)

Section failing_writes.

Variables (w : World) (start_date : datetime.t).

Lemma substring_prefix (n : nat) (t : string) :
  exists rest, t = String.substring 0 n t +:+ rest.
Proof.
  revert n. induction t as [| c t IH]; intros [| n]; simpl.
  - by exists "".
  - by exists "".
  - by exists (String c t).
  - destruct (IH n) as [rest Hrest]. exists rest.
    change (String c t = String c (String.substring 0 n t +:+ rest)).
    f_equal. exact Hrest.
Qed.

Lemma fwrite_follows (f : File) (s t : string) :
  file_follows f s -> file_follows (fwrite w f t) (s +:+ t).
Proof.
  unfold file_follows, fwrite. destruct (error f) as [e |] eqn:He.
  - rewrite He. intros [He' [rest ->]]. split; [done |].
    exists (rest +:+ t). by rewrite append_assoc.
  - intros <-. destruct (write_fault w (written f) t) as [[| n] |]; simpl.
    + split; [by left |]. by exists t.
    + split; [by right |]. destruct (substring_prefix n t) as [rest Hrest].
      exists rest. rewrite append_assoc. f_equal. exact Hrest.
    + done.
Qed.

Lemma failed_follows (f : File) (s t : string) :
  is_Some (error f) -> file_follows f s -> file_follows f (s +:+ t).
Proof.
  unfold file_follows. intros [e He]. rewrite He.
  intros [He' [rest ->]]. split; [done |].
  exists (rest +:+ t). by rewrite append_assoc.
Qed.

Lemma write_days_to_follows (days : list Z) (f : File) (s : string)
    (tbl : gmap string Z) (tbl' : gmap string Z) :
  file_follows f s -> (error f = None -> tbl = tbl') ->
  let r := fold_left (write_day_to w start_date) days (f, tbl) in
  let r' := fold_left (write_day start_date) days (s, tbl') in
  file_follows (fst r) (fst r')
  /\ (error (fst r) = None -> snd r = snd r').
Proof.
  revert f s tbl tbl'.
  induction days as [| i days IH]; intros f s tbl tbl' Hf Ht; simpl.
  - done.
  - unfold write_day_to at 2. unfold write_day at 2.
    destruct (error f) as [e |] eqn:He.
    + destruct (defaultdict.getitem tbl' _) as [c' t']. apply IH.
      * apply failed_follows; [by rewrite He | done].
      * rewrite He. done.
    + rewrite <- (Ht eq_refl).
      destruct (defaultdict.getitem tbl _) as [c t]. apply IH.
      * apply fwrite_follows. done.
      * done.
Qed.

Lemma write_results_to_follows (rs : list Result.t) (f : File) (s : string) :
  file_follows f s ->
  file_follows (fold_left (write_result_to w) rs f)
    (fold_left write_result rs s).
Proof.
  revert f s. induction rs as [| r rs IH]; intros f s Hf; simpl; [done |].
  apply IH. unfold write_result_to, write_result. by apply fwrite_follows.
Qed.

Lemma fwrite_kept_error (f : File) (t : string) :
  error (fwrite w f t) = None -> error f = None.
Proof.
  unfold fwrite. destruct (error f) as [e |] eqn:He; [| done].
  by rewrite He.
Qed.

Lemma write_results_to_kept_error (rs : list Result.t) (f : File) :
  error (fold_left (write_result_to w) rs f) = None -> error f = None.
Proof.
  revert f. induction rs as [| r rs IH]; intros f; simpl; [done |].
  intros H. apply IH in H. by apply fwrite_kept_error in H.
Qed.

Lemma with_block_follows (args : Args) (st : Loop) :
  let r := with_block w args start_date st new_file in
  file_follows (fst r) (fst (write_report args start_date st))
  /\ (error (fst r) = None -> snd r = snd (write_report args start_date st)).
Proof.
  unfold with_block, write_report. cbv zeta.
  set (header := "# Distribution of paper count by date of "
                 +:+ (if include_updates args then "update" else "submission")
                 +:+ Py.nl).
  assert (H0 : file_follows (fwrite w new_file header) header).
  { apply (fwrite_follows new_file "" header). reflexivity. }
  pose proof (write_days_to_follows (Py.range (nb_days args))
                (fwrite w new_file header) header
                (date_to_count st) (date_to_count st) H0 (fun _ => eq_refl))
    as [H1 H2].
  cbv zeta in H1, H2.
  destruct (fold_left (write_day_to w start_date) _ _) as [f tbl].
  destruct (fold_left (write_day start_date) _ _) as [s tbl'].
  simpl in *. split.
  - apply write_results_to_follows. by apply fwrite_follows.
  - intros H. apply write_results_to_kept_error, fwrite_kept_error in H. auto.
Qed.

Lemma fwrite_no_fault (f : File) (t : string) :
  (forall sofar text, write_fault w sofar text = None) ->
  error f = None -> error (fwrite w f t) = None.
Proof. intros H He. unfold fwrite. by rewrite He, H. Qed.

Lemma with_block_no_fault (args : Args) (st : Loop) :
  (forall sofar text, write_fault w sofar text = None) ->
  error (fst (with_block w args start_date st new_file)) = None.
Proof.
  intros Henc. unfold with_block. cbv zeta.
  assert (Hdays : forall days f tbl,
            error f = None ->
            error (fst (fold_left (write_day_to w start_date) days (f, tbl)))
            = None).
  { induction days as [| i days IH]; intros f tbl He; simpl; [done |].
    unfold write_day_to at 1. rewrite He.
    destruct (defaultdict.getitem tbl _) as [c t]. apply IH.
    by apply fwrite_no_fault. }
  assert (Hres : forall rs f,
            error f = None ->
            error (fold_left (write_result_to w) rs f) = None).
  { induction rs as [| r rs IH]; intros f He; simpl; [done |].
    apply IH. unfold write_result_to. by apply fwrite_no_fault. }
  specialize (Hdays (Py.range (nb_days args))
                (fwrite w new_file
                   (("# Distribution of paper count by date of "
                     +:+ (if include_updates args then "update"
                          else "submission")) +:+ Py.nl))
                (date_to_count st)
                (fwrite_no_fault new_file _ Henc eq_refl)).
  destruct (fold_left (write_day_to w start_date) _ _) as [f tbl].
  simpl in *. apply Hres. by apply fwrite_no_fault.
Qed.

End failing_writes.

Lemma run_after_probe_outcome (w : World) (args : Args) (r0 : Result.t) :
  snd (run_after_probe w args r0) = inr tt
  \/ snd (run_after_probe w args r0) = inl OSError
  \/ snd (run_after_probe w args r0) = inl UnicodeEncodeError.
Proof.
  unfold run_after_probe. cbv zeta.
  destruct (fr _) as [| r frs]; simpl; [by left |].
  destruct (can_open w (path_output args)); [| right; by left].
  match goal with
  | |- context [with_block w args ?sd ?st new_file] =>
      destruct (with_block_follows w sd args st) as [H _]
  end.
  unfold file_follows in H.
  destruct (error _) as [e |]; simpl; [| by left].
  destruct H as [[-> | ->] _]; right; [by right | by left].
Qed.

(** The text of the file a run leaves when no write fails. *)
Lemma with_block_written (w : World) (args : Args) (start_date : datetime.t)
    (st : Loop) :
  error (fst (with_block w args start_date st new_file)) = None ->
  written (fst (with_block w args start_date st new_file))
  = report args start_date (date_to_count st) (fr st).
Proof.
  intros He.
  destruct (with_block_follows w start_date args st) as [H _].
  unfold file_follows in H. rewrite He in H. rewrite H.
  apply write_report_spec.
Qed.

(** ** Counting *)

Lemma counts_after (args : Args) (rs : list Result.t) (m : gmap string Z) :
  let tbl := fold_left defaultdict.incr (map (day_key args) rs) m in
  defaultdict.total tbl = defaultdict.total m + Z.of_nat (length rs)
  /\ forall day, count_of tbl day = count_of m day + records_on args day rs.
Proof.
  revert m. induction rs as [| r rs IH]; intros m; simpl.
  - unfold records_on. simpl. split; intros; lia.
  - destruct (IH (defaultdict.incr m (day_key args r))) as [IH1 IH2].
    split.
    + rewrite IH1, incr_total. lia.
    + intros day. rewrite IH2, incr_count. unfold records_on. simpl.
      case_decide as Hd.
      * subst day. rewrite String.eqb_refl. simpl length. lia.
      * apply String.eqb_neq in Hd. rewrite Hd. lia.
Qed.

(** ** Runs of [main] *)

(** C5: when [nb_days] is not strictly between 0 and 367, or the output path
    exists, the run ends with the failed assertion and has caused no event
    at all: no request to the service, no file, no message. *)
Theorem bad_arguments_abort_before_any_effect (w : World) (args : Args) :
  nb_days args <= 0 \/ 367 <= nb_days args
  \/ path_exists w (path_output args) = true ->
  main w args = ([], inl AssertionError).
Proof. apply main_rejects_bad_arguments. Qed.

Lemma bad_arguments_abort_witness :
  main (sample_world "out.md" [paper_new]) (sample_args ["cs.CL"] 367)
  = ([], inl AssertionError).
Proof.
  apply (bad_arguments_abort_before_any_effect
           (sample_world "out.md" [paper_new]) (sample_args ["cs.CL"] 367)).
  right. left. simpl. lia.
Defined.

Lemma existing_path_aborts_example :
  main (sample_world "out.md" [paper_new]) (sample_args ["cs.CL"] 7)
  = ([], inl AssertionError).
Proof. reflexivity. Qed.

(** C6: in a run with a valid [nb_days] (whose output path is free and whose
    probe is answered), the one search after the probe is requested with
    the result cap [min (200 * nb_days) 300000], 200 and 300000 being the
    constants [MAX_PAPERS_PER_DAY] and [MAX_RESULTS]. *)
Theorem requested_cap_is_min (w : World) (args : Args)
    (r0 : Result.t) (more : list Result.t) :
  0 < nb_days args < 367 ->
  path_exists w (path_output args) = false ->
  results w probe_search = r0 :: more ->
  MAX_PAPERS_PER_DAY = 200 /\ MAX_RESULTS = 300000
  /\ exists (s : Search.t) (later : list event),
       fst (main w args)
       = Request probe_search :: Print (info_msg args) :: Request s :: later
       /\ Search.max_results s = Z.min (200 * nb_days args) 300000
       /\ forall s', In (Request s') later -> False.
Proof.
  intros Hn Hp Hr. rewrite (main_trace w args r0 more Hn Hp Hr).
  split; [done |]. split; [done |].
  destruct (run_after_probe_requests w args r0) as (later & -> & Hlater).
  exists (main_search args), later.
  split; [reflexivity |]. split; [reflexivity |]. exact Hlater.
Qed.

Lemma requested_cap_witness :
  exists (s : Search.t) (later : list event),
    fst (main (sample_world "" [paper_new; paper_edge; paper_old])
           (sample_args ["cs.CL"; "cs.IR"] 7))
    = Request probe_search :: Print (info_msg (sample_args ["cs.CL"; "cs.IR"] 7))
        :: Request s :: later
    /\ Search.max_results s = 1400.
Proof.
  destruct (requested_cap_is_min
              (sample_world "" [paper_new; paper_edge; paper_old])
              (sample_args ["cs.CL"; "cs.IR"] 7) paper_new [])
    as (_ & _ & s & later & H1 & H2 & _).
  - simpl. lia.
  - reflexivity.
  - reflexivity.
  - exists s, later. split; [exact H1 | exact H2].
Defined.

(** The cap of a valid run is always below the ceiling of the service. *)
Lemma cap_below_ceiling (args : Args) :
  0 < nb_days args < 367 ->
  Search.max_results (main_search args) < MAX_RESULTS.
Proof.
  intros H. unfold main_search, MAX_PAPERS_PER_DAY, MAX_RESULTS. simpl. lia.
Qed.

(** C3: a run that reaches the loop and retains no record prints the warning
    that no papers were found and that [--nb_days] may be increased, with
    the advice to add [--include_updates] exactly when that flag is off, and
    returns; it writes no file. *)
Theorem no_record_warns_and_writes_nothing (w : World) (args : Args)
    (r0 : Result.t) (more : list Result.t) :
  0 < nb_days args < 367 ->
  path_exists w (path_output args) = false ->
  results w probe_search = r0 :: more ->
  fr (consume args
        (start_date_of w args (datetime.utcoffset (Result.published r0)))
        (results w (main_search args)) loop_init) = [] ->
  main w args
  = ([Request probe_search;
      Print (info_msg args);
      Request (main_search args);
      Print ("WARNING: No papers found in last " +:+ Py.str (nb_days args)
               +:+ " days. Consider increasing --nb_days"
               +:+ (if include_updates args then ""
                    else " or adding the flag --include_updates")
               +:+ "." +:+ Py.nl)],
     inr tt)
  /\ forall path content,
       ~ In (WriteFile path content) (fst (main w args)).
Proof.
  intros Hn Hp Hr Hfr. rewrite (main_trace w args r0 more Hn Hp Hr).
  unfold run_after_probe. cbv zeta. rewrite Hfr. split.
  - unfold no_papers_msg, info_msg. cbv zeta.
    destruct (include_updates args); simpl negb; cbv iota;
      rewrite ?append_assoc; reflexivity.
  - intros path content H. simpl in H.
    repeat destruct H as [[=] | H]; done.
Qed.

Lemma no_record_witness :
  main (sample_world "" [paper_old; paper_old]) (sample_args ["cs.CL"] 7)
  = ([Request probe_search;
      Print (info_msg (sample_args ["cs.CL"] 7));
      Request (main_search (sample_args ["cs.CL"] 7));
      Print ("WARNING: No papers found in last 7 days. Consider increasing --nb_days or adding the flag --include_updates."
               +:+ Py.nl)],
     inr tt).
Proof.
  apply (no_record_warns_and_writes_nothing
           (sample_world "" [paper_old; paper_old]) (sample_args ["cs.CL"] 7)
           paper_new []).
  - simpl. lia.
  - reflexivity.
  - reflexivity.
  - reflexivity.
Defined.

(** The first record of the answer being older than [start_date] is one way
    to retain nothing. *)
Lemma first_record_older_retains_nothing (args : Args)
    (start_date : datetime.t) (r : Result.t) (rs : list Result.t) :
  older args start_date r = true ->
  fr (consume args start_date (r :: rs) loop_init) = [].
Proof. unfold older. intros H. simpl. by rewrite H. Qed.

(** C4, as corrected: a run that retains at least one record and reaches
    the end of the sequence without seeing a record older than [start_date]
    prints, after the two requests and the first message, the warning that
    [max_results] was too low, which names the constant
    [MAX_PAPERS_PER_DAY] when the requested cap is below [MAX_RESULTS] and
    the limit of the API otherwise.  When the output file can be opened and
    every write to it succeeds, the run then writes the report of the
    records retained so far to the output path, prints how many it wrote
    and returns.  When the file cannot be opened the run ends there with
    the error of [open], and no file is written. *)
Theorem exhausted_sequence_warns_and_writes (w : World) (args : Args)
    (r0 : Result.t) (more : list Result.t) :
  0 < nb_days args < 367 ->
  path_exists w (path_output args) = false ->
  results w probe_search = r0 :: more ->
  let start_date :=
    start_date_of w args (datetime.utcoffset (Result.published r0)) in
  let st :=
    consume args start_date (results w (main_search args)) loop_init in
  fr st <> [] ->
  start_passed st = false ->
  let cap := Z.min (200 * nb_days args) 300000 in
  let warned :=
    [Request probe_search;
     Print (info_msg args);
     Request (main_search args);
     Print ("WARNING: max_results (" +:+ Py.str cap
              +:+ ") was too low to get all papers for the last "
              +:+ Py.str (nb_days args) +:+ " days."
              +:+ (if cap <? 300000
                   then " Consider increasing MAX_PAPERS_PER_DAY (200)."
                   else " The API limits the number of results to 300000."))]
  in
  (exists later, fst (main w args) = warned ++ later)
  /\ (can_open w (path_output args) = true ->
      error (fst (with_block w args start_date st new_file)) = None ->
      main w args
      = (warned
         ++ [WriteFile (path_output args)
               (report args start_date (date_to_count st) (fr st));
             Print (wrote_msg w args (length (fr st)))],
         inr tt))
  /\ (can_open w (path_output args) = false ->
      main w args = (warned, inl OSError)).
Proof.
  intros Hn Hp Hr start_date st Hfr Hsp cap warned.
  rewrite (main_trace w args r0 more Hn Hp Hr).
  unfold run_after_probe. cbv zeta. fold start_date. fold st.
  rewrite Hsp.
  assert (Hmsg : truncation_msg args (Search.max_results (main_search args))
                 = "WARNING: max_results (" +:+ Py.str cap
                   +:+ ") was too low to get all papers for the last "
                   +:+ Py.str (nb_days args) +:+ " days."
                   +:+ (if cap <? 300000
                        then " Consider increasing MAX_PAPERS_PER_DAY (200)."
                        else
                          " The API limits the number of results to 300000.")).
  { unfold truncation_msg, main_search, Search.max_results. cbv zeta.
    change (Z.min (MAX_PAPERS_PER_DAY * nb_days args) MAX_RESULTS) with cap.
    change MAX_RESULTS with 300000.
    destruct (cap <? 300000); rewrite ?append_assoc; reflexivity. }
  rewrite Hmsg. fold warned.
  destruct (fr st) as [| r frs] eqn:E; [done |]. rewrite <- E.
  split; [| split].
  - destruct (can_open w (path_output args)).
    + destruct (error _) as [e |]; simpl fst; eexists; reflexivity.
    + exists []. simpl fst. by rewrite app_nil_r.
  - intros Hopen Hwrite.
    rewrite Hopen, Hwrite, (with_block_written _ _ _ _ Hwrite). reflexivity.
  - intros Hopen. rewrite Hopen. reflexivity.
Qed.

Lemma exhausted_sequence_witness :
  snd (main (sample_world "" [paper_new; paper_edge])
         (sample_args ["cs.CL"] 7)) = inr tt
  /\ In (Print "WARNING: max_results (1400) was too low to get all papers for the last 7 days. Consider increasing MAX_PAPERS_PER_DAY (200).")
       (fst (main (sample_world "" [paper_new; paper_edge])
               (sample_args ["cs.CL"] 7))).
Proof.
  assert (H := exhausted_sequence_warns_and_writes
                 (sample_world "" [paper_new; paper_edge])
                 (sample_args ["cs.CL"] 7) paper_new []
                 ltac:(simpl; lia) eq_refl eq_refl).
  cbv zeta in H.
  specialize (H ltac:(vm_compute; discriminate)
                ltac:(vm_compute; reflexivity)).
  destruct H as (_ & H & _).
  rewrite (H eq_refl ltac:(vm_compute; reflexivity)).
  split; [reflexivity |].
  right. right. right. left. vm_compute. reflexivity.
Defined.

(** Counterexample to C4 without the condition on the output file: at a
    path that does not exist and cannot be opened for writing, two records
    are retained, the sequence ends without an older record, the warning is
    printed, and then [open] raises; no file is written and the run does
    not return. *)
Lemma exhausted_sequence_counterexample :
  let w := closed_world [paper_new; paper_edge] in
  let args := sample_args ["cs.CL"] 7 in
  let st :=
    consume args sample_start (results w (main_search args)) loop_init in
  0 < nb_days args < 367
  /\ path_exists w (path_output args) = false
  /\ start_date_of w args 0 = sample_start
  /\ fr st = [paper_new; paper_edge]
  /\ start_passed st = false
  /\ main w args
     = ([Request probe_search;
         Print (info_msg args);
         Request (main_search args);
         Print "WARNING: max_results (1400) was too low to get all papers for the last 7 days. Consider increasing MAX_PAPERS_PER_DAY (200)."],
        inl OSError)
  /\ ~ exists path content,
         In (WriteFile path content) (fst (main w args)).
Proof.
  cbv zeta.
  assert (Hmain : main (closed_world [paper_new; paper_edge])
                    (sample_args ["cs.CL"] 7)
                  = ([Request probe_search;
                      Print (info_msg (sample_args ["cs.CL"] 7));
                      Request (main_search (sample_args ["cs.CL"] 7));
                      Print "WARNING: max_results (1400) was too low to get all papers for the last 7 days. Consider increasing MAX_PAPERS_PER_DAY (200)."],
                     inl OSError))
    by (vm_compute; reflexivity).
  split; [simpl; lia |]. split; [reflexivity |].
  split; [vm_compute; reflexivity |]. split; [vm_compute; reflexivity |].
  split; [vm_compute; reflexivity |]. split; [exact Hmain |].
  rewrite Hmain. intros (path & content & H). simpl in H.
  repeat destruct H as [[=] | H]; done.
Qed.

(** When the sequence does contain a record older than [start_date] after
    the retained ones, no truncation warning is printed. *)
Lemma covered_window_no_warning :
  fst (main (sample_world "" [paper_new; paper_edge; paper_old])
         (sample_args ["cs.CL"] 7))
  = [Request probe_search;
     Print (info_msg (sample_args ["cs.CL"] 7));
     Request (main_search (sample_args ["cs.CL"] 7));
     WriteFile "out.md"
       (report (sample_args ["cs.CL"] 7) sample_start
          {[ "2024-01-08" := 1; "2024-01-03" := 1 ]}
          [paper_new; paper_edge]);
     Print (wrote_msg (sample_world "" [paper_new; paper_edge])
              (sample_args ["cs.CL"] 7) 2)].
Proof. vm_compute. reflexivity. Qed.

(** C9: the assertions look at [nb_days] and at the output path only.  With
    an empty list of categories the query is the join of no term, the empty
    string; the run fails an assertion exactly when [nb_days] is out of
    range or the output path exists; otherwise it goes on to the probe
    request and, once the probe is answered, sends the empty query to the
    service. *)
Theorem empty_categories_are_not_rejected (w : World) (args : Args) :
  categories args = [] ->
  Search.query (main_search args) = ""
  /\ (snd (main w args) = inl AssertionError
      <-> nb_days args <= 0 \/ 367 <= nb_days args
          \/ path_exists w (path_output args) = true)
  /\ (0 < nb_days args < 367 ->
      path_exists w (path_output args) = false ->
      exists later : list event,
        fst (main w args) = Request probe_search :: later)
  /\ forall (r0 : Result.t) (more : list Result.t),
       0 < nb_days args < 367 ->
       path_exists w (path_output args) = false ->
       results w probe_search = r0 :: more ->
       exists later : list event,
         fst (main w args)
         = Request probe_search :: Print (info_msg args)
             :: Request
                  (Search.mk "" []
                     (Z.min (200 * nb_days args) 300000)
                     (if include_updates args
                      then LastUpdatedDate else SubmittedDate)
                     Descending)
             :: later.
Proof.
  intros Hc. split; [| split; [| split]].
  - unfold main_search. simpl. by rewrite Hc.
  - split.
    + intros H.
      destruct (Z_lt_ge_dec 0 (nb_days args)) as [H1 | H1]; [| lia].
      destruct (Z_lt_ge_dec (nb_days args) 367) as [H2 | H2]; [| lia].
      destruct (path_exists w (path_output args)) eqn:Hp; [tauto |].
      exfalso. destruct (results w probe_search) as [| r0 more] eqn:Hr.
      * rewrite main_probe_empty in H by (done || lia). discriminate.
      * rewrite (main_trace w args r0 more) in H by (done || lia).
        destruct (run_after_probe_outcome w args r0) as [E | [E | E]];
          rewrite E in H; discriminate.
    + intros H. by rewrite main_rejects_bad_arguments.
  - intros Hn Hp. destruct (results w probe_search) as [| r0 more] eqn:Hr.
    + rewrite main_probe_empty by done. by eexists.
    + rewrite (main_trace w args r0 more) by done.
      destruct (run_after_probe_requests w args r0) as (later & -> & _).
      by eexists.
  - intros r0 more Hn Hp Hr.
    rewrite (main_trace w args r0 more Hn Hp Hr).
    destruct (run_after_probe_requests w args r0) as (later & -> & _).
    exists later. unfold main_search. cbv zeta. rewrite Hc. reflexivity.
Qed.

Lemma empty_categories_witness :
  exists later : list event,
    fst (main (sample_world "" [paper_new]) (sample_args [] 7))
    = Request probe_search :: Print (info_msg (sample_args [] 7))
        :: Request (Search.mk "" [] 1400 SubmittedDate Descending) :: later.
Proof.
  destruct (empty_categories_are_not_rejected
              (sample_world "" [paper_new]) (sample_args [] 7))
    as (_ & _ & _ & H).
  - reflexivity.
  - apply (H paper_new []).
    + simpl. lia.
    + reflexivity.
    + reflexivity.
Defined.

(** ** The window and the report of a run whose records are all recent *)

Lemma toordinal_now (c tz : Z) :
  datetime.toordinal (datetime.now c tz) = (c + tz) / datetime.DAY_US + 1.
Proof.
  unfold datetime.now, datetime.toordinal. cbv zeta.
  pose proof (ymd2ord_ord2ymd ((c + tz) / datetime.DAY_US + 1)) as H.
  destruct (datetime.ord2ymd _) as [[y m] d]. exact H.
Qed.

Lemma toordinal_start_date (w : World) (args : Args) (tz : Z) :
  datetime.toordinal (start_date_of w args tz)
  = datetime.toordinal (datetime.now (clock w) tz) - nb_days args.
Proof.
  unfold start_date_of. cbv zeta.
  rewrite <- Z.add_opp_r, <- toordinal_add_days.
  generalize (datetime.add_days (datetime.now (clock w) tz) (- nb_days args)).
  intros sd. unfold datetime.toordinal, datetime.at_midnight.
  cbn [datetime.year datetime.month datetime.day]. reflexivity.
Qed.

Lemma window_ordinals (start_date : datetime.t) (n : Z) :
  map datetime.toordinal (window_days start_date n)
  = seqZ (datetime.toordinal start_date) n.
Proof.
  unfold window_days, Py.range. rewrite map_map.
  rewrite (map_ext _ (Z.add (datetime.toordinal start_date)))
    by (intros i; apply toordinal_add_days).
  change (map ?f ?l) with (f <$> l).
  rewrite fmap_add_seqZ. f_equal. lia.
Qed.

(** C2, as corrected: the window of the count lines is the [nb_days]
    calendar days that end with the day before the day of now.  In a run
    where every record of the answer has its relevant date ([updated] with
    [--include_updates], else [published]) from [start_date] on and before
    the midnight that starts the day of now, and whose output file can be
    opened and written, all [N] records are retained, the day-count table
    sums to [N] and holds for each day the number of records of that day.
    The file, written when [N > 0], is the report: the header, one count
    line for each day of the window in chronological order, showing the
    table's count for the day and 0 where the table has none, the separator
    and the [N] blocks; as the sequence ends without a record older than
    [start_date], the warning that [max_results] was too low is printed
    before it.  Once the report is rendered the table has an entry for
    every day of the window and still sums to [N]. *)
Theorem window_records_are_all_reported (w : World) (args : Args)
    (r0 : Result.t) (more : list Result.t) :
  0 < nb_days args < 367 ->
  path_exists w (path_output args) = false ->
  results w probe_search = r0 :: more ->
  let tz := datetime.utcoffset (Result.published r0) in
  let start_date := start_date_of w args tz in
  let rs := results w (main_search args) in
  let date := fun r =>
    if include_updates args then Result.updated r else Result.published r in
  Forall (fun r => datetime.instant start_date <= datetime.instant (date r)
                   /\ datetime.instant (date r)
                      < datetime.instant start_date
                        + nb_days args * datetime.DAY_US) rs ->
  let st := consume args start_date rs loop_init in
  let tbl := date_to_count st in
  let today := datetime.toordinal (datetime.now (clock w) tz) in
  fr st = rs
  /\ defaultdict.total tbl = Z.of_nat (length rs)
  /\ (forall day, count_of tbl day = records_dated date day rs)
  /\ (can_open w (path_output args) = true ->
      error (fst (with_block w args start_date st new_file)) = None ->
      main w args
      = ([Request probe_search; Print (info_msg args);
          Request (main_search args)]
         ++ match rs with
            | [] => [Print (no_papers_msg args)]
            | _ :: _ =>
                [Print (truncation_msg args
                          (Search.max_results (main_search args)));
                 WriteFile (path_output args) (report args start_date tbl rs);
                 Print (wrote_msg w args (length rs))]
            end,
         inr tt))
  /\ map datetime.toordinal (window_days start_date (nb_days args))
     = seqZ (today - nb_days args) (nb_days args)
  /\ defaultdict.total (snd (write_report args start_date st))
     = Z.of_nat (length rs)
  /\ forall d, In d (window_days start_date (nb_days args)) ->
       datetime.strftime d "%Y-%m-%d"
       ∈ dom (snd (write_report args start_date st)).
Proof.
  intros Hn Hp Hr tz start_date rs date Hall st tbl today.
  assert (Hold : Forall (fun r => older args start_date r = false) rs).
  { eapply Forall_impl; [exact Hall |]. intros r [H _].
    apply older_false. exact H. }
  destruct (consume_keeps_all args start_date rs Hold) as (Hfr & Hsp & Htbl).
  fold st in Hfr, Hsp, Htbl. fold tbl in Htbl.
  destruct (counts_after args rs ∅) as [Htot Hcnt].
  cbv zeta in Htot, Hcnt. rewrite <- Htbl in Htot, Hcnt.
  rewrite total_empty in Htot.
  destruct (write_report_table start_date args st) as (_ & Htot' & Hdom).
  split; [exact Hfr |]. split; [lia |]. split; [| split; [| split; [| split]]].
  - intros day. rewrite Hcnt. unfold count_of. rewrite lookup_empty. simpl.
    unfold records_dated, records_on, day_key, relevant_date, date,
      DATE_FORMAT. lia.
  - intros Hopen Hwrite. rewrite (main_trace w args r0 more Hn Hp Hr).
    unfold run_after_probe. cbv zeta. fold tz start_date rs st.
    rewrite Hsp, Hopen, Hwrite, (with_block_written _ _ _ _ Hwrite), Hfr.
    fold tbl. by destruct rs.
  - rewrite window_ordinals. unfold start_date, today.
    by rewrite toordinal_start_date.
  - rewrite Htot'. fold tbl. lia.
  - exact Hdom.
Qed.

Lemma window_records_witness :
  fr (consume (sample_args_updates ["cs.CL"] 7)
        (start_date_of (sample_world "" [paper_new; paper_revised])
           (sample_args_updates ["cs.CL"] 7)
           (datetime.utcoffset (Result.published paper_new)))
        (results (sample_world "" [paper_new; paper_revised])
           (main_search (sample_args_updates ["cs.CL"] 7)))
        loop_init)
  = results (sample_world "" [paper_new; paper_revised])
      (main_search (sample_args_updates ["cs.CL"] 7)).
Proof.
  assert (H := window_records_are_all_reported
                 (sample_world "" [paper_new; paper_revised])
                 (sample_args_updates ["cs.CL"] 7) paper_new []
                 ltac:(simpl; lia) eq_refl eq_refl).
  cbv zeta in H. apply H.
  change (results (sample_world "" [paper_new; paper_revised])
            (main_search (sample_args_updates ["cs.CL"] 7)))
    with [paper_new; paper_revised].
  repeat constructor; vm_compute; (discriminate || reflexivity).
Defined.

(** Counterexample to C2 with a window that ends at now.  In this run over
    two days the two records are dated on the present day (2024-01-10) and
    on the day before, both within the 48 hours that end at now and both
    from [start_date] on; both are retained and written and the table sums
    to 2.  But the count lines are for 2024-01-08 and 2024-01-09: the
    present day has no line, and the lines add up to 1. *)
Lemma window_ending_at_now_counterexample :
  let w := sample_world "" [paper_today; paper_yesterday] in
  let args := sample_args ["cs.CL"] 2 in
  let start_date := datetime.mk 2024 1 8 0 0 in
  let now := datetime.now (clock w) 0 in
  let st :=
    consume args start_date (results w (main_search args)) loop_init in
  start_date_of w args 0 = start_date
  /\ Forall (fun r => datetime.instant start_date
                      <= datetime.instant (Result.published r)
                      <= datetime.instant now
                      /\ datetime.instant now - 2 * datetime.DAY_US
                         < datetime.instant (Result.published r))
       [paper_today; paper_yesterday]
  /\ datetime.strftime now "%Y-%m-%d" = "2024-01-10"
  /\ datetime.strftime (Result.published paper_today) "%Y-%m-%d"
     = "2024-01-10"
  /\ datetime.strftime (Result.published paper_yesterday) "%Y-%m-%d"
     = "2024-01-09"
  /\ fr st = [paper_today; paper_yesterday]
  /\ defaultdict.total (date_to_count st) = 2
  /\ main w args
     = ([Request probe_search;
         Print (info_msg args);
         Request (main_search args);
         Print "WARNING: max_results (400) was too low to get all papers for the last 2 days. Consider increasing MAX_PAPERS_PER_DAY (200).";
         WriteFile "out.md"
           ("# Distribution of paper count by date of submission" +:+ Py.nl
            +:+ "- 2024-01-08: 0" +:+ Py.nl
            +:+ "- 2024-01-09: 1" +:+ Py.nl
            +:+ Py.nl +:+ "********************" +:+ Py.nl +:+ Py.nl
            +:+ format_result paper_today +:+ Py.nl +:+ Py.nl +:+ Py.nl
            +:+ format_result paper_yesterday
            +:+ Py.nl +:+ Py.nl +:+ Py.nl);
         Print ("INFO: Wrote 2 results in /home/user/out.md" +:+ Py.nl)],
        inr tt)
  /\ ~ In "2024-01-10"
         (map (fun d => datetime.strftime d "%Y-%m-%d")
            (window_days start_date 2)).
Proof.
  cbv zeta. split; [vm_compute; reflexivity |].
  split; [repeat constructor; vm_compute; (discriminate || reflexivity) |].
  split; [vm_compute; reflexivity |]. split; [vm_compute; reflexivity |].
  split; [vm_compute; reflexivity |]. split; [vm_compute; reflexivity |].
  split; [vm_compute; reflexivity |]. split; [vm_compute; reflexivity |].
  vm_compute. intros [H | [H | []]]; discriminate.
Qed.

(** The file of a run over two days: a line for each of the two days before
    the present day, the second with the count 0. *)
Lemma report_example :
  fst (main (sample_world "" [paper_new; paper_old])
         (sample_args ["cs.CL"] 2))
  = [Request probe_search;
     Print (info_msg (sample_args ["cs.CL"] 2));
     Request (main_search (sample_args ["cs.CL"] 2));
     WriteFile "out.md"
       ("# Distribution of paper count by date of submission" +:+ Py.nl
        +:+ "- 2024-01-08: 1" +:+ Py.nl
        +:+ "- 2024-01-09: 0" +:+ Py.nl
        +:+ Py.nl +:+ "********************" +:+ Py.nl +:+ Py.nl
        +:+ format_result paper_new +:+ Py.nl +:+ Py.nl +:+ Py.nl);
     Print ("INFO: Wrote 1 results in /home/user/out.md" +:+ Py.nl)].
Proof. vm_compute. reflexivity. Qed.

(** A record of the present day is retained and counted in the table, but
    the present day is not a day of the window and has no line. *)
Lemma present_day_example :
  let args := sample_args ["cs.CL"] 2 in
  let start_date := datetime.mk 2024 1 8 0 0 in
  let st := consume args start_date [paper_today; paper_new] loop_init in
  start_date_of (sample_world "" [paper_today; paper_new]) args 0 = start_date
  /\ fr st = [paper_today; paper_new]
  /\ date_to_count st !! "2024-01-10" = Some 1
  /\ map (fun d => datetime.strftime d DATE_FORMAT) (window_days start_date 2)
     = ["2024-01-08"; "2024-01-09"].
Proof. vm_compute. repeat split; reflexivity. Qed.

(** * Further properties of the script *)

(** ** The three ways a run can go *)

Lemma main_cases (w : World) (args : Args) :
  ((nb_days args <= 0 \/ 367 <= nb_days args
    \/ path_exists w (path_output args) = true)
   /\ main w args = ([], inl AssertionError))
  \/ (0 < nb_days args < 367
      /\ path_exists w (path_output args) = false
      /\ ((results w probe_search = []
           /\ main w args = ([Request probe_search], inl StopIteration))
          \/ exists r0 more,
               results w probe_search = r0 :: more
               /\ main w args = run_after_probe w args r0)).
Proof.
  destruct (Z_lt_ge_dec 0 (nb_days args)) as [H1 | H1];
    [| left; split; [lia | apply main_rejects_bad_arguments; lia]].
  destruct (Z_lt_ge_dec (nb_days args) 367) as [H2 | H2];
    [| left; split; [lia | apply main_rejects_bad_arguments; lia]].
  destruct (path_exists w (path_output args)) eqn:Hp;
    [left; split; [tauto | apply main_rejects_bad_arguments; tauto] |].
  right. split; [lia |]. split; [done |].
  destruct (results w probe_search) as [| r0 more] eqn:Hr.
  - left. split; [done |]. apply main_probe_empty; (done || lia).
  - right. exists r0, more. split; [done |].
    apply (main_trace w args r0 more); (done || lia).
Qed.

(** X1: when the arguments are accepted but the probe query is answered
    with no record, the run ends with [StopIteration] right after the probe
    request: nothing is printed, the search for the categories is never
    sent and no file is written. *)
Theorem empty_probe_stops_the_run (w : World) (args : Args) :
  0 < nb_days args < 367 ->
  path_exists w (path_output args) = false ->
  results w probe_search = [] ->
  main w args = ([Request probe_search], inl StopIteration).
Proof. apply main_probe_empty. Qed.

Lemma empty_probe_witness :
  main {| path_exists := fun _ => false; abspath := fun p => p;
          clock := sample_clock; results := fun _ => [];
          can_open := fun _ => true; write_fault := fun _ _ => None |}
    (sample_args ["cs.CL"] 7)
  = ([Request probe_search], inl StopIteration).
Proof.
  apply (empty_probe_stops_the_run
           {| path_exists := fun _ => false; abspath := fun p => p;
              clock := sample_clock; results := fun _ => [];
              can_open := fun _ => true; write_fault := fun _ _ => None |}
           (sample_args ["cs.CL"] 7)).
  - simpl. lia.
  - reflexivity.
  - reflexivity.
Defined.

(** ** The loop *)

(** X2: the loop never looks past the first record that is older than
    [start_date]: whatever follows that record, within the window or not,
    leaves the retained list, the flag and the table the same. *)
Theorem consume_ignores_what_follows_an_older_record (args : Args)
    (start_date : datetime.t) (before : list Result.t) (r : Result.t)
    (rest rest' : list Result.t) (st : Loop) :
  older args start_date r = true ->
  consume args start_date (before ++ r :: rest) st
  = consume args start_date (before ++ r :: rest') st.
Proof.
  intros Hr. revert st.
  induction before as [| b before IH]; intros st; simpl.
  - unfold older in Hr. by rewrite Hr.
  - destruct (datetime.lt (relevant_date args b) start_date); [done |].
    apply IH.
Qed.

Lemma consume_ignores_witness :
  consume (sample_args ["cs.CL"] 7) sample_start
    ([paper_new] ++ paper_old :: [paper_edge; paper_new]) loop_init
  = consume (sample_args ["cs.CL"] 7) sample_start
      ([paper_new] ++ paper_old :: []) loop_init.
Proof.
  apply (consume_ignores_what_follows_an_older_record
           (sample_args ["cs.CL"] 7) sample_start [paper_new] paper_old
           [paper_edge; paper_new] [] loop_init).
  reflexivity.
Defined.

Section table_invariant.

Variable args : Args.

Lemma incr_lookup_None (m : gmap string Z) (k k' : string) :
  defaultdict.incr m k !! k' = None <-> m !! k' = None /\ k <> k'.
Proof.
  unfold defaultdict.incr, defaultdict.getitem.
  destruct (m !! k) as [v |] eqn:Hk; simpl.
  - destruct (decide (k = k')) as [<- | Hne].
    + rewrite lookup_insert_eq, Hk. split; [done | intros [? ?]; done].
    + rewrite lookup_insert_ne by done. tauto.
  - destruct (decide (k = k')) as [<- | Hne].
    + rewrite lookup_insert_eq. split; [done | intros [? ?]; done].
    + rewrite !lookup_insert_ne by done. tauto.
Qed.

Lemma keys_after (rs : list Result.t) (m : gmap string Z) (day : string) :
  fold_left defaultdict.incr (map (day_key args) rs) m !! day = None
  <-> m !! day = None /\ records_on args day rs = 0.
Proof.
  revert m. induction rs as [| r rs IH]; intros m; simpl.
  - unfold records_on. simpl. tauto.
  - rewrite IH, incr_lookup_None. unfold records_on. simpl.
    destruct (String.eqb_spec (day_key args r) day) as [-> | Hne].
    + simpl length. split; [intros [[_ ?] _]; done | lia].
    + tauto.
Qed.

End table_invariant.

(** X3: whatever the sequence, after the loop the table counts exactly the
    retained records: its values sum to their number, the value of a day is
    the number of retained records of that day, and a day has an entry only
    if some retained record falls on it (no entry has the value 0). *)
Theorem table_counts_the_retained_records (args : Args)
    (start_date : datetime.t) (it : list Result.t) :
  let st := consume args start_date it loop_init in
  defaultdict.total (date_to_count st) = Z.of_nat (length (fr st))
  /\ (forall day, count_of (date_to_count st) day
                  = records_on args day (fr st))
  /\ (forall day, date_to_count st !! day = None
                  <-> records_on args day (fr st) = 0)
  /\ forall day v, date_to_count st !! day = Some v -> 1 <= v.
Proof.
  intros st.
  destruct (consume_split args start_date it loop_init)
    as (kept & rest & _ & _ & Hfr & Htbl & _).
  fold st in Hfr, Htbl. simpl in Hfr, Htbl. subst kept.
  destruct (counts_after args (fr st) ∅) as [Htot Hcnt].
  cbv zeta in Htot, Hcnt. rewrite <- Htbl in Htot, Hcnt.
  rewrite total_empty in Htot.
  assert (Hcount : forall day, count_of (date_to_count st) day
                               = records_on args day (fr st)).
  { intros day. rewrite Hcnt. unfold count_of. rewrite lookup_empty.
    simpl. lia. }
  assert (Hnone : forall day, date_to_count st !! day = None
                              <-> records_on args day (fr st) = 0).
  { intros day. rewrite Htbl, keys_after, lookup_empty. tauto. }
  repeat split.
  - lia.
  - exact Hcount.
  - apply Hnone.
  - apply Hnone.
  - intros day v Hv.
    specialize (Hcount day). unfold count_of in Hcount.
    rewrite Hv in Hcount. simpl in Hcount.
    destruct (decide (records_on args day (fr st) = 0)) as [H0 | H0].
    + apply Hnone in H0. congruence.
    + unfold records_on in *. lia.
Qed.

(** X13: on every sequence, sorted or not, the retained records are the
    longest prefix of the sequence that has no record older than
    [start_date], in the order received, and [start_passed] is set exactly
    when the sequence contains a record older than [start_date]. *)
Theorem consume_keeps_the_longest_recent_prefix (args : Args)
    (start_date : datetime.t) (it : list Result.t) :
  let st := consume args start_date it loop_init in
  (exists rest : list Result.t,
     it = fr st ++ rest
     /\ Forall (fun r => older args start_date r = false) (fr st)
     /\ match rest with
        | [] => True
        | r :: _ => older args start_date r = true
        end)
  /\ (start_passed st = true
      <-> exists r, In r it /\ older args start_date r = true).
Proof.
  intros st.
  destruct (consume_split args start_date it loop_init)
    as (kept & rest & Hit & Hkept & Hfr & _ & Hrest).
  fold st in Hfr, Hrest. simpl in Hfr, Hrest. subst kept.
  split.
  - exists rest. split; [done |]. split; [done |].
    destruct rest; [done | apply Hrest].
  - destruct rest as [| r rest].
    + rewrite Hrest. split; [done |]. intros (r & Hin & Hr).
      rewrite Hit, app_nil_r in Hin.
      rewrite Forall_forall in Hkept.
      apply list_elem_of_In, Hkept in Hin. congruence.
    + destruct Hrest as [Hr ->]. split; [| done]. intros _.
      exists r. split; [| done]. rewrite Hit. apply in_or_app. right. by left.
Qed.

(** ** Runs that reach the report *)



(** X5: what no run does.  A run sends at most two requests and leaves at
    most one file, and a file only at the output path, only when that path
    did not exist and could be opened, and only after both requests.  The
    file holds the report when the run returns; the only other way a file is
    left is that a write to it failed: then the run ends with the exception
    of that write, [UnicodeEncodeError] or [OSError], and the file holds a
    part of the report from its start. *)
Theorem main_leaves_only_the_new_output_file (w : World) (args : Args) :
  let tr := fst (main w args) in
  (length (List.filter is_request tr) <= 2)%nat
  /\ (length (List.filter is_write tr) <= 1)%nat
  /\ forall path content,
       In (WriteFile path content) tr ->
       path = path_output args
       /\ path_exists w path = false
       /\ can_open w path = true
       /\ (exists before after,
             tr = before ++ WriteFile path content :: after
             /\ List.filter is_request before
                = [Request probe_search; Request (main_search args)]
             /\ List.filter is_request after = [])
       /\ exists (r0 : Result.t) (more : list Result.t),
            results w probe_search = r0 :: more
            /\ let start_date :=
                 start_date_of w args
                   (datetime.utcoffset (Result.published r0)) in
               let st :=
                 consume args start_date (results w (main_search args))
                   loop_init in
               let full := report args start_date (date_to_count st) (fr st) in
               (snd (main w args) = inr tt /\ content = full)
               \/ ((snd (main w args) = inl UnicodeEncodeError
                    \/ snd (main w args) = inl OSError)
                   /\ exists rest, full = content +:+ rest).
Proof.
  intros tr. subst tr.
  destruct (main_cases w args)
    as [[_ ->] | (Hn & Hp & [[_ ->] | (r0 & more & Hr & ->)])]; simpl fst.
  - split; [simpl; lia | split; [simpl; lia |]]. intros ? ? [].
  - split; [simpl; lia | split; [simpl; lia |]]. intros ? ? [[=] | []].
  - unfold run_after_probe. cbv zeta.
    match goal with
    | |- context [with_block w args ?sd ?st new_file] =>
        pose proof (with_block_follows w sd args st) as [Hfollow _];
        pose proof (write_report_spec sd args st) as Hspec
    end.
    unfold file_follows in Hfollow.
    destruct (fr _) as [| r frs] eqn:Hfr.
    { split; [simpl; lia | split; [simpl; lia |]].
      intros path content H. simpl in H.
      repeat destruct H as [[=] | H]; done. }
    rewrite <- Hfr in *. clear Hfr r frs.
    destruct (can_open w (path_output args)) eqn:Hopen.
    + destruct (error _) as [e |] eqn:He; destruct (start_passed _);
        (split; [simpl; lia | split; [simpl; lia |]]);
        intros path content H; simpl in H;
        repeat destruct H as [[=] | H]; try done; subst;
        (split; [done |]); (split; [done |]); (split; [done |]).
      * destruct Hfollow as [He' [rest Hrest]].
        split; [eexists [_; _; _], []; by repeat split |].
        exists r0, more. split; [done |]. cbv zeta. right.
        split; [destruct He' as [-> | ->]; [by left | by right] |].
        exists rest. by rewrite <- Hspec.
      * destruct Hfollow as [He' [rest Hrest]].
        split; [eexists [_; _; _; _], []; by repeat split |].
        exists r0, more. split; [done |]. cbv zeta. right.
        split; [destruct He' as [-> | ->]; [by left | by right] |].
        exists rest. by rewrite <- Hspec.
      * split; [eexists [_; _; _], [_]; by repeat split |].
        exists r0, more. split; [done |]. cbv zeta. left.
        split; [done |]. by rewrite <- Hspec.
      * split; [eexists [_; _; _; _], [_]; by repeat split |].
        exists r0, more. split; [done |]. cbv zeta. left.
        split; [done |]. by rewrite <- Hspec.
    + destruct (start_passed _);
        (split; [simpl; lia | split; [simpl; lia |]]);
        intros path content H; simpl in H;
        repeat destruct H as [[=] | H]; done.
Qed.

(** A run whose file is encoded in ASCII and whose second record has a title
    outside ASCII: the file is left with the count lines and the first
    block, and the run ends with [UnicodeEncodeError] before the final
    message. *)
Lemma truncated_file_example :
  main (ascii_world [paper_new; paper_accent; paper_old])
    (sample_args ["cs.CL"] 7)
  = ([Request probe_search;
      Print (info_msg (sample_args ["cs.CL"] 7));
      Request (main_search (sample_args ["cs.CL"] 7));
      WriteFile "out.md"
        ("# Distribution of paper count by date of submission" +:+ Py.nl
         +:+ "- 2024-01-03: 0" +:+ Py.nl
         +:+ "- 2024-01-04: 0" +:+ Py.nl
         +:+ "- 2024-01-05: 0" +:+ Py.nl
         +:+ "- 2024-01-06: 0" +:+ Py.nl
         +:+ "- 2024-01-07: 1" +:+ Py.nl
         +:+ "- 2024-01-08: 1" +:+ Py.nl
         +:+ "- 2024-01-09: 0" +:+ Py.nl
         +:+ Py.nl +:+ "********************" +:+ Py.nl +:+ Py.nl
         +:+ format_result paper_new +:+ Py.nl +:+ Py.nl +:+ Py.nl)],
     inl UnicodeEncodeError).
Proof. vm_compute. reflexivity. Qed.

(** A run whose disk is full after 60 characters: the file is left with
    the header and a part of the first count line, and the run ends with
    [OSError]. *)
Lemma full_disk_example :
  main (small_disk_world [paper_new; paper_old]) (sample_args ["cs.CL"] 7)
  = ([Request probe_search;
      Print (info_msg (sample_args ["cs.CL"] 7));
      Request (main_search (sample_args ["cs.CL"] 7));
      WriteFile "out.md"
        ("# Distribution of paper count by date of submission" +:+ Py.nl
         +:+ "- 2024-0")],
     inl OSError).
Proof. vm_compute. reflexivity. Qed.

(** X6: for every accepted [nb_days] the requested cap is [200 * nb_days],
    at most 73200 and so below [MAX_RESULTS]: the truncation warning of
    such a run always advises to increase [MAX_PAPERS_PER_DAY], and the
    sentence about the limit of the API is never the one chosen. *)
Theorem truncation_warning_names_the_daily_cap (args : Args) :
  0 < nb_days args < 367 ->
  Search.max_results (main_search args) = 200 * nb_days args
  /\ Search.max_results (main_search args) <= 73200
  /\ truncation_msg args (Search.max_results (main_search args))
     = "WARNING: max_results (" +:+ Py.str (200 * nb_days args)
       +:+ ") was too low to get all papers for the last "
       +:+ Py.str (nb_days args) +:+ " days."
       +:+ " Consider increasing MAX_PAPERS_PER_DAY (200).".
Proof.
  intros Hn.
  assert (Hcap : Search.max_results (main_search args) = 200 * nb_days args).
  { unfold main_search, MAX_PAPERS_PER_DAY, MAX_RESULTS. simpl. lia. }
  split; [exact Hcap |]. split; [lia |].
  rewrite Hcap. unfold truncation_msg. cbv zeta.
  assert (Hlt : (200 * nb_days args <? MAX_RESULTS) = true)
    by (apply Z.ltb_lt; unfold MAX_RESULTS; lia).
  rewrite Hlt. rewrite !append_assoc. reflexivity.
Qed.

Lemma truncation_warning_witness :
  truncation_msg (sample_args ["cs.CL"] 366)
    (Search.max_results (main_search (sample_args ["cs.CL"] 366)))
  = "WARNING: max_results (73200) was too low to get all papers for the last 366 days. Consider increasing MAX_PAPERS_PER_DAY (200).".
Proof.
  rewrite (proj2 (proj2 (truncation_warning_names_the_daily_cap
                           (sample_args ["cs.CL"] 366)
                           ltac:(simpl; lia)))).
  vm_compute. reflexivity.
Defined.

(** ** The start of the window *)

Lemma instant_now (c tz : Z) :
  datetime.instant (datetime.now c tz)
  = ((c + tz) / datetime.DAY_US + 1) * datetime.DAY_US
    + (c + tz) mod datetime.DAY_US - tz.
Proof.
  unfold datetime.instant. rewrite toordinal_now.
  unfold datetime.now. cbv zeta.
  destruct (datetime.ord2ymd _) as [[y m] d]. reflexivity.
Qed.

(** X7: [start_date] is the midnight, in the time zone of the probe, that
    lies [nb_days] days plus the present time of day before the present
    time.  So it is at least [nb_days] days and less than [nb_days + 1] days
    before now: a record of the last [nb_days] times 24 hours is never
    older than [start_date]. *)
Theorem start_date_is_midnight_nb_days_back (w : World) (args : Args)
    (tz : Z) :
  let now := datetime.now (clock w) tz in
  let start_date := start_date_of w args tz in
  datetime.micros start_date = 0
  /\ datetime.utcoffset start_date = tz
  /\ datetime.toordinal start_date = datetime.toordinal now - nb_days args
  /\ datetime.instant now - datetime.instant start_date
     = nb_days args * datetime.DAY_US + datetime.micros now
  /\ 0 <= datetime.micros now < datetime.DAY_US
  /\ nb_days args * datetime.DAY_US
     <= datetime.instant now - datetime.instant start_date
     < (nb_days args + 1) * datetime.DAY_US.
Proof.
  intros now start_date.
  assert (Hmic : datetime.micros now = (clock w + tz) mod datetime.DAY_US).
  { unfold now, datetime.now. cbv zeta.
    destruct (datetime.ord2ymd _) as [[y m] d]. reflexivity. }
  assert (Htz : datetime.utcoffset now = tz).
  { unfold now, datetime.now. cbv zeta.
    destruct (datetime.ord2ymd _) as [[y m] d]. reflexivity. }
  assert (Hord := toordinal_start_date w args tz). fold now start_date in Hord.
  assert (Hrange : 0 <= datetime.micros now < datetime.DAY_US).
  { rewrite Hmic. apply Z.mod_pos_bound. reflexivity. }
  assert (Hdiff : datetime.instant now - datetime.instant start_date
                  = nb_days args * datetime.DAY_US + datetime.micros now).
  { unfold datetime.instant at 1 2. rewrite Hord, Htz.
    change (datetime.micros start_date) with 0.
    change (datetime.utcoffset start_date) with tz. lia. }
  split; [reflexivity |]. split; [reflexivity |]. split; [exact Hord |].
  split; [exact Hdiff |]. split; [exact Hrange |].
  rewrite Hdiff. lia.
Qed.

(** ** More on the formatted block *)

Lemma truthy_blank_to_none (o : option string) :
  Py.truthy (blank_to_none o) = Py.truthy o.
Proof.
  destruct o as [s |]; simpl; [| done].
  destruct (String.eqb s "") eqn:E; simpl; [done | by rewrite E].
Qed.

Lemma text_blank_to_none (o : option string) :
  Py.truthy o = true -> Py.text (blank_to_none o) = Py.text o.
Proof.
  destruct o as [s |]; simpl; [| done].
  destruct (String.eqb s ""); simpl; done.
Qed.

Lemma listed_links_without_blanks (ls : list Link.t) :
  map Link.href
    (List.filter link_listed
       (map (fun l => Link.mk (Link.href l) (blank_to_none (Link.title l)))
          ls))
  = map Link.href (List.filter link_listed ls).
Proof.
  induction ls as [| l ls IH]; simpl; [done |].
  assert (H : link_listed
                (Link.mk (Link.href l) (blank_to_none (Link.title l)))
              = link_listed l).
  { unfold link_listed. simpl. rewrite truthy_blank_to_none.
    destruct (Py.truthy (Link.title l)) eqn:E; simpl; [| done].
    by rewrite text_blank_to_none. }
  rewrite H. destruct (link_listed l); simpl; by rewrite IH.
Qed.

(** X8: an empty string counts as a missing value.  A record whose comment,
    journal reference or DOI is the empty string, or which has links with
    an empty title, is formatted exactly like the record in which these are
    missing: no line with an empty value is written and a link with an
    empty title is not listed. *)
Theorem empty_strings_format_as_missing (r : Result.t) :
  format_result r = format_result (without_blanks r).
Proof.
  unfold format_result, without_blanks. cbv zeta.
  cbn [Result.entry_id Result.updated Result.published Result.title
       Result.authors Result.summary Result.comment Result.journal_ref
       Result.doi Result.primary_category Result.categories Result.links].
  rewrite listed_links_without_blanks, !truthy_blank_to_none.
  destruct (Py.truthy (Result.comment r)) eqn:Hc;
    destruct (Py.truthy (Result.journal_ref r)) eqn:Hj;
    destruct (Py.truthy (Result.doi r)) eqn:Hd;
    rewrite ?text_blank_to_none by done; reflexivity.
Qed.

(** X9: a record with a comment, a journal reference and a DOI, none of them
    empty, has the three lines between the Authors line and the Primary
    category line, in the order Comments, Journal, DOI, each with the value
    as the record has it. *)
Theorem present_fields_come_in_order (r : Result.t) (c j d : string) :
  Result.comment r = Some c -> c <> "" ->
  Result.journal_ref r = Some j -> j <> "" ->
  Result.doi r = Some d -> d <> "" ->
  exists before after : string,
    format_result r
    = before +:+ Py.nl
      +:+ "- Authors: " +:+ Py.join ", " (map Author.name (Result.authors r))
      +:+ Py.nl +:+ "- Comments: " +:+ c
      +:+ Py.nl +:+ "- Journal: " +:+ j
      +:+ Py.nl +:+ "- DOI: " +:+ d
      +:+ Py.nl +:+ "- Primary category: " +:+ Result.primary_category r
      +:+ Py.nl +:+ "- Categories: "
      +:+ Py.join ", " (Result.categories r)
      +:+ after.
Proof.
  intros Hc Hc' Hj Hj' Hd Hd'.
  unfold format_result. cbv zeta. rewrite Hc, Hj, Hd. simpl Py.truthy.
  apply String.eqb_neq in Hc', Hj', Hd'. rewrite Hc', Hj', Hd'.
  simpl negb. cbv iota. simpl Py.text.
  exists ("# " +:+ Result.title r +:+ Py.nl
          +:+ "- URL: " +:+ Result.entry_id r +:+ Py.nl +:+ "- Published: "
          +:+ datetime.strftime (Result.published r) DATE_FORMAT
          +:+ (if datetime.ne (Result.updated r) (Result.published r)
               then " (updated "
                    +:+ datetime.strftime (Result.updated r) DATE_FORMAT
                    +:+ ")"
               else "")).
  destruct (datetime.ne _ _);
    destruct (negb _);
    eexists; rewrite ?append_assoc;
    repeat (apply (f_equal (String.append _))); reflexivity.
Qed.

Lemma present_fields_witness :
  exists before after : string,
    format_result
      (Result.mk "id" sample_start sample_start "T" [Author.mk "A"] "S"
         (Some "c1") (Some "j1") (Some "d1") "cs.CL" ["cs.CL"] [])
    = before +:+ Py.nl +:+ "- Authors: A" +:+ Py.nl +:+ "- Comments: c1"
      +:+ Py.nl +:+ "- Journal: j1" +:+ Py.nl +:+ "- DOI: d1"
      +:+ Py.nl +:+ "- Primary category: cs.CL"
      +:+ Py.nl +:+ "- Categories: cs.CL" +:+ after.
Proof.
  destruct (present_fields_come_in_order
              (Result.mk "id" sample_start sample_start "T" [Author.mk "A"]
                 "S" (Some "c1") (Some "j1") (Some "d1") "cs.CL" ["cs.CL"] [])
              "c1" "j1" "d1")
    as (before & after & H); try reflexivity; try discriminate.
  exists before, after. rewrite H. reflexivity.
Defined.

(** ** The calendar: dates and ordinals correspond *)

Lemma month_day_range_table (leap : bool) (n : Z) :
  0 <= n < 365 -> month_day_in_range leap n = true.
Proof.
  intros Hn.
  assert (H : forallb (month_day_in_range leap) (seqZ 0 365) = true)
    by (destruct leap; vm_compute; reflexivity).
  rewrite forallb_forall in H. apply H.
  apply list_elem_of_In, elem_of_seqZ. lia.
Qed.

Lemma ord2ymd_in_range (n : Z) :
  let '(y, m, d) := datetime.ord2ymd n in
  1 <= m <= 12 /\ 1 <= d <= days_in_month y m.
Proof.
  unfold datetime.ord2ymd. cbv zeta.
  unfold datetime.DI400Y, datetime.DI100Y, datetime.DI4Y.
  set (n0 := n - 1).
  pose proof (Z.div_mod n0 146097 ltac:(lia)) as E400.
  pose proof (Z.mod_pos_bound n0 146097 ltac:(lia)) as B400.
  set (q400 := n0 / 146097) in *. set (r400 := n0 mod 146097) in *.
  pose proof (Z.div_mod r400 36524 ltac:(lia)) as E100.
  pose proof (Z.mod_pos_bound r400 36524 ltac:(lia)) as B100.
  set (n100 := r400 / 36524) in *. set (r100 := r400 mod 36524) in *.
  pose proof (Z.div_mod r100 1461 ltac:(lia)) as E4.
  pose proof (Z.mod_pos_bound r100 1461 ltac:(lia)) as B4.
  set (n4 := r100 / 1461) in *. set (r4 := r100 mod 1461) in *.
  pose proof (Z.div_mod r4 365 ltac:(lia)) as E1.
  pose proof (Z.mod_pos_bound r4 365 ltac:(lia)) as B1.
  set (n1 := r4 / 365) in *. set (r1 := r4 mod 365) in *.
  assert (0 <= n100 <= 4 /\ 0 <= n4 <= 24 /\ 0 <= n1 <= 4)
    as (R100 & R4 & R1) by lia.
  destruct ((n1 =? 4) || (n100 =? 4)) eqn:Hsp.
  - split; [lia |]. unfold days_in_month. simpl (12 =? 2). simpl andb.
    cbv iota. change (datetime.table datetime.DAYS_IN_MONTH 12) with 31. lia.
  - apply orb_false_iff in Hsp as [Hn1 Hn100].
    apply Z.eqb_neq in Hn1, Hn100.
    set (year := q400 * 400 + 1 + n100 * 100 + n4 * 4 + n1) in *.
    set (leap := (n1 =? 3) && (negb (n4 =? 24) || (n100 =? 3))).
    assert (Hleap : datetime.is_leap year = leap).
    { unfold datetime.is_leap, leap.
      pose proof (Z.div_mod year 4 ltac:(lia)).
      pose proof (Z.mod_pos_bound year 4 ltac:(lia)).
      pose proof (Z.div_mod year 100 ltac:(lia)).
      pose proof (Z.mod_pos_bound year 100 ltac:(lia)).
      pose proof (Z.div_mod year 400 ltac:(lia)).
      pose proof (Z.mod_pos_bound year 400 ltac:(lia)).
      repeat match goal with
             | |- context [?a =? ?b] => destruct (Z.eqb_spec a b)
             end; simpl; try reflexivity; exfalso; lia. }
    pose proof (month_day_range_table leap r1 ltac:(lia)) as Hmd.
    unfold month_day_in_range, datetime.month_day in Hmd. cbv zeta in Hmd.
    destruct (r1 <? _); unfold days_in_month; rewrite Hleap;
      rewrite !andb_true_iff, !Z.leb_le in Hmd; lia.
Qed.

Lemma days_before_year_succ (y : Z) :
  datetime.days_before_year (y + 1)
  = datetime.days_before_year y + 365 + Z.b2z (datetime.is_leap y).
Proof.
  unfold datetime.days_before_year, datetime.is_leap. cbv zeta.
  replace (y + 1 - 1) with y by lia.
  pose proof (Z.div_mod y 4 ltac:(lia)).
  pose proof (Z.mod_pos_bound y 4 ltac:(lia)).
  pose proof (Z.div_mod y 100 ltac:(lia)).
  pose proof (Z.mod_pos_bound y 100 ltac:(lia)).
  pose proof (Z.div_mod y 400 ltac:(lia)).
  pose proof (Z.mod_pos_bound y 400 ltac:(lia)).
  pose proof (Z.div_mod (y - 1) 4 ltac:(lia)).
  pose proof (Z.mod_pos_bound (y - 1) 4 ltac:(lia)).
  pose proof (Z.div_mod (y - 1) 100 ltac:(lia)).
  pose proof (Z.mod_pos_bound (y - 1) 100 ltac:(lia)).
  pose proof (Z.div_mod (y - 1) 400 ltac:(lia)).
  pose proof (Z.mod_pos_bound (y - 1) 400 ltac:(lia)).
  repeat match goal with
         | |- context [?a =? ?b] => destruct (Z.eqb_spec a b)
         end; simpl Z.b2z; lia.
Qed.

Lemma days_before_year_mono (a b : Z) :
  a <= b -> datetime.days_before_year a <= datetime.days_before_year b.
Proof.
  intros Hab. unfold datetime.days_before_year. cbv zeta.
  pose proof (Z.div_mod (a - 1) 4 ltac:(lia)).
  pose proof (Z.mod_pos_bound (a - 1) 4 ltac:(lia)).
  pose proof (Z.div_mod (a - 1) 100 ltac:(lia)).
  pose proof (Z.mod_pos_bound (a - 1) 100 ltac:(lia)).
  pose proof (Z.div_mod (a - 1) 400 ltac:(lia)).
  pose proof (Z.mod_pos_bound (a - 1) 400 ltac:(lia)).
  pose proof (Z.div_mod (b - 1) 4 ltac:(lia)).
  pose proof (Z.mod_pos_bound (b - 1) 4 ltac:(lia)).
  pose proof (Z.div_mod (b - 1) 100 ltac:(lia)).
  pose proof (Z.mod_pos_bound (b - 1) 100 ltac:(lia)).
  pose proof (Z.div_mod (b - 1) 400 ltac:(lia)).
  pose proof (Z.mod_pos_bound (b - 1) 400 ltac:(lia)).
  lia.
Qed.

Lemma month_cases (m : Z) :
  1 <= m <= 12 ->
  m = 1 \/ m = 2 \/ m = 3 \/ m = 4 \/ m = 5 \/ m = 6 \/ m = 7 \/ m = 8
  \/ m = 9 \/ m = 10 \/ m = 11 \/ m = 12.
Proof. lia. Qed.

Ltac month_tables :=
  unfold datetime.days_before_month, days_in_month in *;
  repeat match goal with
         | |- context [datetime.table ?t ?m] =>
             let v := eval vm_compute in (datetime.table t m) in
             change (datetime.table t m) with v
         | H : context [datetime.table ?t ?m] |- _ =>
             let v := eval vm_compute in (datetime.table t m) in
             change (datetime.table t m) with v in H
         end;
  cbn in *.

Lemma day_of_year_range (y m d : Z) :
  1 <= m <= 12 -> 1 <= d <= days_in_month y m ->
  1 <= datetime.days_before_month y m + d
    <= 365 + Z.b2z (datetime.is_leap y).
Proof.
  intros Hm Hd.
  destruct (month_cases m Hm) as [-> | [-> | [-> | [-> | [-> | [-> | [-> |
    [-> | [-> | [-> | [-> | ->]]]]]]]]]]];
    month_tables; destruct (datetime.is_leap y); cbn in *; lia.
Qed.

Lemma month_day_inj (y m d m' d' : Z) :
  1 <= m <= 12 -> 1 <= d <= days_in_month y m ->
  1 <= m' <= 12 -> 1 <= d' <= days_in_month y m' ->
  datetime.days_before_month y m + d = datetime.days_before_month y m' + d' ->
  m = m' /\ d = d'.
Proof.
  intros Hm Hd Hm' Hd' E.
  destruct (month_cases m Hm) as [-> | [-> | [-> | [-> | [-> | [-> | [-> |
    [-> | [-> | [-> | [-> | ->]]]]]]]]]]];
    destruct (month_cases m' Hm') as [-> | [-> | [-> | [-> | [-> | [-> | [-> |
      [-> | [-> | [-> | [-> | ->]]]]]]]]]]];
    month_tables; destruct (datetime.is_leap y); cbn in *; lia.
Qed.

Lemma ymd2ord_inj (y m d y' m' d' : Z) :
  1 <= m <= 12 -> 1 <= d <= days_in_month y m ->
  1 <= m' <= 12 -> 1 <= d' <= days_in_month y' m' ->
  datetime.ymd2ord y m d = datetime.ymd2ord y' m' d' ->
  y = y' /\ m = m' /\ d = d'.
Proof.
  intros Hm Hd Hm' Hd' E. unfold datetime.ymd2ord in E.
  pose proof (day_of_year_range y m d Hm Hd) as R.
  pose proof (day_of_year_range y' m' d' Hm' Hd') as R'.
  pose proof (days_before_year_succ y) as S.
  pose proof (days_before_year_succ y') as S'.
  assert (y = y') as <-.
  { destruct (Z.lt_trichotomy y y') as [Hlt | [? | Hlt]]; [| done |].
    - pose proof (days_before_year_mono (y + 1) y' ltac:(lia)). lia.
    - pose proof (days_before_year_mono (y' + 1) y ltac:(lia)). lia. }
  split; [done |]. apply (month_day_inj y); (done || lia).
Qed.

(** A valid date is the date of its ordinal. *)
Lemma ord2ymd_toordinal (d : datetime.t) :
  valid_date d ->
  datetime.ord2ymd (datetime.toordinal d)
  = (datetime.year d, datetime.month d, datetime.day d).
Proof.
  intros (Hm & Hd & _).
  pose proof (ymd2ord_ord2ymd (datetime.toordinal d)) as E.
  pose proof (ord2ymd_in_range (datetime.toordinal d)) as R.
  destruct (datetime.ord2ymd (datetime.toordinal d)) as [[y m] dd].
  destruct R as [Rm Rd].
  destruct (ymd2ord_inj y m dd (datetime.year d) (datetime.month d)
              (datetime.day d) Rm Rd Hm Hd E) as (-> & -> & ->).
  reflexivity.
Qed.

(** ** Day keys *)

Lemma year_field_table (y : Z) :
  1000 <= y <= 9999 -> year_field_ok y = true.
Proof.
  intros Hy.
  assert (H : forallb year_field_ok (seqZ 1000 9000) = true)
    by (vm_compute; reflexivity).
  rewrite forallb_forall in H. apply H.
  apply list_elem_of_In, elem_of_seqZ. lia.
Qed.

Lemma short_field_table (n : Z) :
  1 <= n <= 31 -> short_field_ok n = true.
Proof.
  intros Hn.
  assert (H : forallb short_field_ok (seqZ 1 31) = true)
    by (vm_compute; reflexivity).
  rewrite forallb_forall in H. apply H.
  apply list_elem_of_In, elem_of_seqZ. lia.
Qed.

Lemma append_inj_length (a a' b b' : string) :
  String.length a = String.length a' ->
  a +:+ b = a' +:+ b' -> a = a' /\ b = b'.
Proof.
  revert a'. induction a as [| x a IH]; intros [| x' a'] Hlen E;
    try discriminate.
  - done.
  - change (String x (a +:+ b) = String x' (a' +:+ b')) in E.
    injection E as -> E. injection Hlen as Hlen.
    destruct (IH a' Hlen E) as [-> ->]. done.
Qed.

Lemma strftime_date (d : datetime.t) :
  datetime.strftime d DATE_FORMAT
  = Py.zfill 4 (Py.str (datetime.year d))
    +:+ "-" +:+ Py.zfill 2 (Py.str (datetime.month d))
    +:+ "-" +:+ Py.zfill 2 (Py.str (datetime.day d)).
Proof.
  rewrite <- (append_nil_r (Py.zfill 2 (Py.str (datetime.day d)))).
  reflexivity.
Qed.

Lemma field_inj (ok : Z -> bool) (w : nat) (a b : Z) :
  (forall n, ok n = true ->
     String.length (Py.zfill w (Py.str n)) = w
     /\ read_number (Py.zfill w (Py.str n)) = Some n) ->
  ok a = true -> ok b = true ->
  Py.zfill w (Py.str a) = Py.zfill w (Py.str b) -> a = b.
Proof.
  intros Hok Ha Hb E.
  destruct (Hok a Ha) as [_ Ra]. destruct (Hok b Hb) as [_ Rb].
  rewrite E in Ra. congruence.
Qed.

Lemma year_field_spec (n : Z) :
  year_field_ok n = true ->
  String.length (Py.zfill 4 (Py.str n)) = 4%nat
  /\ read_number (Py.zfill 4 (Py.str n)) = Some n.
Proof.
  unfold year_field_ok. rewrite andb_true_iff. intros [H1 H2].
  apply Nat.eqb_eq in H1. split; [done |].
  destruct (read_number _) as [n' |]; [| done].
  apply Z.eqb_eq in H2. by subst.
Qed.

Lemma short_field_spec (n : Z) :
  short_field_ok n = true ->
  String.length (Py.zfill 2 (Py.str n)) = 2%nat
  /\ read_number (Py.zfill 2 (Py.str n)) = Some n.
Proof.
  unfold short_field_ok. rewrite andb_true_iff. intros [H1 H2].
  apply Nat.eqb_eq in H1. split; [done |].
  destruct (read_number _) as [n' |]; [| done].
  apply Z.eqb_eq in H2. by subst.
Qed.

Lemma day_key_inj (d1 d2 : datetime.t) :
  1000 <= datetime.year d1 <= 9999 -> 1000 <= datetime.year d2 <= 9999 ->
  1 <= datetime.month d1 <= 12 -> 1 <= datetime.month d2 <= 12 ->
  1 <= datetime.day d1 <= 31 -> 1 <= datetime.day d2 <= 31 ->
  datetime.strftime d1 DATE_FORMAT = datetime.strftime d2 DATE_FORMAT ->
  datetime.year d1 = datetime.year d2
  /\ datetime.month d1 = datetime.month d2
  /\ datetime.day d1 = datetime.day d2.
Proof.
  intros Hy1 Hy2 Hm1 Hm2 Hd1 Hd2. rewrite !strftime_date. intros E.
  pose proof (year_field_table _ Hy1) as Y1.
  pose proof (year_field_table _ Hy2) as Y2.
  pose proof (short_field_table (datetime.month d1) ltac:(lia)) as M1.
  pose proof (short_field_table (datetime.month d2) ltac:(lia)) as M2.
  pose proof (short_field_table _ Hd1) as D1.
  pose proof (short_field_table _ Hd2) as D2.
  apply append_inj_length in E as [Ey E];
    [| by rewrite (proj1 (year_field_spec _ Y1)),
               (proj1 (year_field_spec _ Y2))].
  change ("-" +:+ ?s) with (String "-"%char s) in E. injection E as E.
  apply append_inj_length in E as [Em E];
    [| by rewrite (proj1 (short_field_spec _ M1)),
               (proj1 (short_field_spec _ M2))].
  change ("-" +:+ ?s) with (String "-"%char s) in E. injection E as E.
  repeat split.
  - exact (field_inj year_field_ok 4 _ _ year_field_spec Y1 Y2 Ey).
  - exact (field_inj short_field_ok 2 _ _ short_field_spec M1 M2 Em).
  - exact (field_inj short_field_ok 2 _ _ short_field_spec D1 D2 E).
Qed.

(** ** The day lines and the retained records *)

Lemma sum_counts_add (A : Type) (f g : A -> Z) (l : list A) :
  sum_counts (map (fun i => f i + g i) l)
  = sum_counts (map f l) + sum_counts (map g l).
Proof. induction l as [| x l IH]; simpl; lia. Qed.

Lemma sum_counts_zero (A : Type) (f : A -> Z) (l : list A) :
  (forall x, In x l -> f x = 0) -> sum_counts (map f l) = 0.
Proof.
  induction l as [| x l IH]; simpl; intros H; [done |].
  rewrite (H x), IH by auto. done.
Qed.

Lemma sum_counts_one_hot (f : Z -> Z) (c : Z) (l : list Z) :
  NoDup l ->
  (forall i, i ∈ l -> f i = if decide (c = i) then 1 else 0) ->
  sum_counts (map f l) = if decide (c ∈ l) then 1 else 0.
Proof.
  induction 1 as [| x l Hx Hnd IH]; intros Hf; simpl.
  - destruct (decide (c ∈ [])) as [Hin | _]; [| done].
    by apply elem_of_nil in Hin.
  - rewrite (Hf x) by apply list_elem_of_here.
    rewrite IH by (intros; apply Hf; by apply list_elem_of_further).
    destruct (decide (c = x)) as [-> | Hne].
    + destruct (decide (x ∈ l)); [done |].
      destruct (decide (x ∈ x :: l)) as [| Hn]; [done |].
      exfalso. apply Hn, list_elem_of_here.
    + destruct (decide (c ∈ l)) as [Hin | Hnin];
        destruct (decide (c ∈ x :: l)) as [Hin' | Hnin']; try done.
      * exfalso. apply Hnin'. by apply list_elem_of_further.
      * exfalso. apply elem_of_cons in Hin' as [? | ?]; done.
Qed.

Section histogram.

Variables (args : Args) (start_date : datetime.t) (n : Z).

Hypothesis start_midnight : datetime.micros start_date = 0.
Hypothesis window_years :
  Forall (fun d => 1000 <= datetime.year d <= 9999) (window_days start_date n).

Lemma line_day_fields (i : Z) :
  0 <= i < n ->
  let d := datetime.add_days start_date i in
  1000 <= datetime.year d <= 9999
  /\ 1 <= datetime.month d <= 12
  /\ 1 <= datetime.day d <= days_in_month (datetime.year d) (datetime.month d).
Proof.
  intros Hi d.
  assert (Hin : In d (window_days start_date n)).
  { unfold window_days, Py.range. apply in_map.
    apply list_elem_of_In, elem_of_seqZ. lia. }
  rewrite Forall_forall in window_years.
  split; [by apply window_years, list_elem_of_In |].
  unfold d, datetime.add_days.
  pose proof (ord2ymd_in_range (datetime.toordinal start_date + i)) as R.
  destruct (datetime.ord2ymd _) as [[y m] dd]. exact R.
Qed.

Lemma days_in_month_le_31 (y m : Z) : days_in_month y m <= 31.
Proof.
  unfold days_in_month. destruct ((m =? 2) && datetime.is_leap y); [lia |].
  unfold datetime.table, datetime.DAYS_IN_MONTH.
  destruct (Z.to_nat m) as [| [| [| [| [| [| [| [| [| [| [| [| [| k]]]]]]]]]]]]];
    simpl; try lia. by destruct k.
Qed.

Lemma key_matches_line (r : Result.t) (i : Z) :
  plain_record args start_date r -> 0 <= i < n ->
  day_key args r
  = datetime.strftime (datetime.add_days start_date i) DATE_FORMAT
  <-> datetime.toordinal (relevant_date args r)
      = datetime.toordinal start_date + i.
Proof.
  intros (_ & Hvalid & Hyear) Hi.
  destruct (line_day_fields i Hi) as (Ly & Lm & Ld).
  pose proof (toordinal_add_days start_date i) as Hord.
  destruct Hvalid as (Vm & Vd & Vt) eqn:Hv.
  unfold day_key. split.
  - intros E. apply day_key_inj in E as (Ey & Em & Ed); try done.
    + rewrite <- Hord. unfold datetime.toordinal. by rewrite Ey, Em, Ed.
    + pose proof (days_in_month_le_31 (datetime.year (relevant_date args r))
                    (datetime.month (relevant_date args r))). lia.
    + pose proof (days_in_month_le_31
                    (datetime.year (datetime.add_days start_date i))
                    (datetime.month (datetime.add_days start_date i))). lia.
  - intros E.
    pose proof (ord2ymd_toordinal (relevant_date args r)
                  (conj Vm (conj Vd Vt))) as Hr.
    rewrite E in Hr. rewrite !strftime_date.
    unfold datetime.add_days. rewrite Hr. reflexivity.
Qed.

Lemma record_line_sum (r : Result.t) :
  plain_record args start_date r -> older args start_date r = false ->
  sum_counts
    (map (fun i =>
            if String.eqb (day_key args r)
                 (datetime.strftime (datetime.add_days start_date i)
                    DATE_FORMAT)
            then 1 else 0) (seqZ 0 n))
  = if datetime.toordinal (relevant_date args r)
         <? datetime.toordinal start_date + n
    then 1 else 0.
Proof.
  intros Hp Hold.
  assert (Hge : datetime.toordinal start_date
                <= datetime.toordinal (relevant_date args r)).
  { apply older_false in Hold. destruct Hp as (Htz & (_ & _ & Ht) & _).
    unfold datetime.instant in Hold. rewrite Htz, start_midnight in Hold.
    unfold datetime.DAY_US in *. lia. }
  rewrite (sum_counts_one_hot _
             (datetime.toordinal (relevant_date args r)
              - datetime.toordinal start_date)).
  - destruct (decide (_ ∈ seqZ 0 n)) as [Hin | Hnin];
      rewrite elem_of_seqZ in *;
      destruct (Z.ltb_spec (datetime.toordinal (relevant_date args r))
                  (datetime.toordinal start_date + n)); (done || lia).
  - apply NoDup_seqZ.
  - intros i Hi. apply elem_of_seqZ in Hi.
    pose proof (key_matches_line r i Hp ltac:(lia)) as Hk.
    destruct (String.eqb_spec (day_key args r)
                (datetime.strftime (datetime.add_days start_date i)
                   DATE_FORMAT)) as [E | E];
      destruct (decide (_ = i)); try done; exfalso.
    + apply Hk in E. lia.
    + apply E, Hk. lia.
Qed.

Lemma line_sum_of_records (rs : list Result.t) :
  Forall (plain_record args start_date) rs ->
  Forall (fun r => older args start_date r = false) rs ->
  sum_counts
    (map (fun i =>
            records_on args
              (datetime.strftime (datetime.add_days start_date i) DATE_FORMAT)
              rs) (seqZ 0 n))
  = Z.of_nat
      (length
         (List.filter
            (fun r => datetime.toordinal (relevant_date args r)
                      <? datetime.toordinal start_date + n) rs)).
Proof.
  induction rs as [| r rs IH]; intros Hp Ho.
  - simpl. apply sum_counts_zero. done.
  - apply Forall_cons in Hp as [Hp Hps]. apply Forall_cons in Ho as [Ho Hos].
    rewrite (map_ext _
               (fun i =>
                  (if String.eqb (day_key args r)
                        (datetime.strftime (datetime.add_days start_date i)
                           DATE_FORMAT)
                   then 1 else 0)
                  + records_on args
                      (datetime.strftime (datetime.add_days start_date i)
                         DATE_FORMAT) rs)).
    + rewrite sum_counts_add, IH, record_line_sum by done.
      simpl. destruct (_ <? _); simpl length; lia.
    + intros i. unfold records_on. simpl.
      destruct (String.eqb _ _); simpl length; lia.
Qed.

End histogram.

(** X11: the counts on the day lines add up to the number of retained
    records dated before the present day.  For records whose relevant dates
    are calendar dates with four-digit years in the time zone of the probe,
    each retained record dated on one of the [nb_days] days from the day of
    [start_date] to the day before the present day is counted on exactly
    one line, and a retained record dated on the present day (or later) is
    counted on none, although it is in the table and among the blocks. *)
Theorem day_lines_count_the_records_before_today (w : World) (args : Args)
    (tz : Z) (it : list Result.t) :
  let start_date := start_date_of w args tz in
  let today := datetime.now (clock w) tz in
  Forall (fun d => 1000 <= datetime.year d <= 9999)
    (window_days start_date (nb_days args)) ->
  Forall (fun r => datetime.utcoffset (relevant_date args r) = tz
                   /\ valid_date (relevant_date args r)
                   /\ 1000 <= datetime.year (relevant_date args r) <= 9999)
    it ->
  let st := consume args start_date it loop_init in
  sum_counts (line_counts start_date (nb_days args) (date_to_count st))
  = Z.of_nat (length (List.filter (before_day_of args today) (fr st)))
  /\ sum_counts (line_counts start_date (nb_days args) (date_to_count st))
     <= defaultdict.total (date_to_count st).
Proof.
  intros start_date today Hwin Hrec st.
  destruct (consume_split args start_date it loop_init)
    as (kept & rest & Hit & Hkept & Hfr & Htbl & _).
  fold st in Hfr, Htbl. simpl in Hfr, Htbl. subst kept.
  destruct (counts_after args (fr st) ∅) as [Htot Hcnt].
  cbv zeta in Htot, Hcnt. rewrite <- Htbl in Htot, Hcnt.
  rewrite total_empty in Htot.
  assert (Hplain : Forall (plain_record args start_date) (fr st)).
  { rewrite Hit in Hrec. apply Forall_app in Hrec as [Hrec _].
    eapply Forall_impl; [exact Hrec |]. intros r (Htz & Hv & Hy).
    unfold plain_record. cbv zeta. split; [| by split].
    rewrite Htz. unfold start_date, start_date_of. reflexivity. }
  assert (Hsum : sum_counts
                   (line_counts start_date (nb_days args) (date_to_count st))
                 = Z.of_nat
                     (length
                        (List.filter (before_day_of args today) (fr st)))).
  { unfold line_counts, window_days, Py.range. rewrite map_map.
    rewrite (map_ext _
               (fun i =>
                  records_on args
                    (datetime.strftime (datetime.add_days start_date i)
                       DATE_FORMAT) (fr st))).
    - rewrite (line_sum_of_records args start_date (nb_days args)
                 eq_refl Hwin (fr st) Hplain Hkept).
      do 2 f_equal. apply List.filter_ext. intros r.
      unfold before_day_of, today, start_date.
      rewrite toordinal_start_date. f_equal. lia.
    - intros i. rewrite Hcnt. unfold count_of. rewrite lookup_empty.
      simpl. lia. }
  split; [exact Hsum |].
  rewrite Hsum, Htot.
  pose proof (List.filter_length_le (before_day_of args today) (fr st)).
  lia.
Qed.

Lemma day_lines_witness :
  sum_counts
    (line_counts
       (start_date_of (sample_world "" []) (sample_args ["cs.CL"] 7) 0) 7
       (date_to_count
          (consume (sample_args ["cs.CL"] 7)
             (start_date_of (sample_world "" []) (sample_args ["cs.CL"] 7) 0)
             [paper_today; paper_new; paper_edge; paper_old] loop_init)))
  = 2.
Proof.
  assert (H := day_lines_count_the_records_before_today
                 (sample_world "" []) (sample_args ["cs.CL"] 7) 0
                 [paper_today; paper_new; paper_edge; paper_old]).
  cbv zeta in H.
  assert (H1 : Forall (fun d => 1000 <= datetime.year d <= 9999)
                 (window_days
                    (start_date_of (sample_world "" [])
                       (sample_args ["cs.CL"] 7) 0)
                    (nb_days (sample_args ["cs.CL"] 7)))).
  { match goal with
    | |- Forall _ ?l =>
        let v := eval vm_compute in l in change l with v
    end.
    repeat constructor; vm_compute; discriminate. }
  assert (H2 : Forall
                 (fun r =>
                    datetime.utcoffset
                      (relevant_date (sample_args ["cs.CL"] 7) r) = 0
                    /\ valid_date (relevant_date (sample_args ["cs.CL"] 7) r)
                    /\ 1000 <= datetime.year
                                 (relevant_date (sample_args ["cs.CL"] 7) r)
                       <= 9999)
                 [paper_today; paper_new; paper_edge; paper_old]).
  { repeat constructor; vm_compute; discriminate. }
  destruct (H H1 H2) as [Hsum _].
  change (nb_days (sample_args ["cs.CL"] 7)) with 7 in Hsum.
  rewrite Hsum. vm_compute. reflexivity.
Defined.

(** ** What rendering the report does to the table *)



(** ** The days of the lines *)

Lemma line_key_inj (start_date : datetime.t) (n i j : Z) :
  Forall (fun d => 1000 <= datetime.year d <= 9999)
    (window_days start_date n) ->
  0 <= i < n -> 0 <= j < n ->
  datetime.strftime (datetime.add_days start_date i) DATE_FORMAT
  = datetime.strftime (datetime.add_days start_date j) DATE_FORMAT ->
  i = j.
Proof.
  intros Hwin Hi Hj E.
  destruct (line_day_fields start_date n Hwin i Hi) as (Yi & Mi & Di).
  destruct (line_day_fields start_date n Hwin j Hj) as (Yj & Mj & Dj).
  pose proof (days_in_month_le_31
                (datetime.year (datetime.add_days start_date i))
                (datetime.month (datetime.add_days start_date i))).
  pose proof (days_in_month_le_31
                (datetime.year (datetime.add_days start_date j))
                (datetime.month (datetime.add_days start_date j))).
  apply day_key_inj in E as (Ey & Em & Ed); try lia.
  pose proof (toordinal_add_days start_date i) as Oi.
  pose proof (toordinal_add_days start_date j) as Oj.
  revert Ey Em Ed Oi Oj. unfold datetime.toordinal at 1 3.
  generalize (datetime.add_days start_date i) as di.
  generalize (datetime.add_days start_date j) as dj.
  intros dj di Ey Em Ed Oi Oj. rewrite Ey, Em, Ed in Oi. lia.
Qed.

(** X12: the lines of the report are for pairwise different days.  When the
    days of the window have four-digit years, the keys written on the
    [nb_days] lines are all different, and the day of line number [i] is the
    day whose ordinal is that of [start_date] plus [i]. *)
Theorem day_lines_are_distinct_days (start_date : datetime.t) (n : Z) :
  Forall (fun d => 1000 <= datetime.year d <= 9999)
    (window_days start_date n) ->
  NoDup (window_keys start_date n)
  /\ length (window_keys start_date n) = Z.to_nat n
  /\ map datetime.toordinal (window_days start_date n)
     = seqZ (datetime.toordinal start_date) n.
Proof.
  intros Hwin. split; [| split].
  - unfold window_keys, window_days, Py.range. rewrite map_map.
    apply NoDup_ListNoDup, Finite.Injective_map_NoDup_in.
    + intros i j Hi Hj E.
      apply list_elem_of_In, elem_of_seqZ in Hi, Hj.
      apply (line_key_inj start_date n i j Hwin); (done || lia).
    + apply NoDup_ListNoDup, NoDup_seqZ.
  - unfold window_keys, window_days, Py.range.
    rewrite !length_map. apply length_seqZ.
  - apply window_ordinals.
Qed.

Lemma day_lines_distinct_witness :
  NoDup (window_keys sample_start 7).
Proof.
  apply (day_lines_are_distinct_days sample_start 7).
  match goal with
  | |- Forall _ ?l => let v := eval vm_compute in l in change l with v
  end.
  repeat constructor; vm_compute; discriminate.
Defined.
